(** * The Streamlit client of the RAG study assistant

    A shallow embedding of the client script: the backend locator
    ([BACKEND_URL]), the three transport operations
    ([check_backend_health], [build_index], [ask_question]) and the
    button handlers that render their results.

    Python values are modelled as they are at run time: a [str] is a
    sequence of code points, the object returned by [resp.json()] is a
    tree of dicts, lists, strings, numbers, booleans and [None].
    Exceptions, the requests sent and the Streamlit calls made are
    threaded through a small state-and-exception monad. *)

From Stdlib Require Import List ZArith NArith Bool Lia.
From Stdlib Require Import Ascii String DecimalString.
Import ListNotations.

Local Open Scope list_scope.
Set Warnings "-register-all".

(* ================================================================== *)
(** ** Python strings *)
(* ================================================================== *)

(** A Python [str]: a sequence of Unicode code points. *)
Definition pystr := list N.

(** An ASCII literal of the source, as a [pystr]. *)
Definition py (s : string) : pystr :=
  map N_of_ascii (list_ascii_of_string s).

Definition pystr_eqb (a b : pystr) : bool :=
  if list_eq_dec N.eq_dec a b then true else false.

(** [str(n)] for an [int]. *)
Definition str_int (n : Z) : pystr :=
  py (NilZero.string_of_int (Z.to_int n)).

(** [str.isspace] on one code point (CPython's [_PyUnicode_IsWhitespace]). *)
Definition is_whitespace (c : N) : bool :=
  ((9 <=? c) && (c <=? 13)
   || (28 <=? c) && (c <=? 32)
   || (c =? 133) || (c =? 160) || (c =? 5760)
   || (8192 <=? c) && (c <=? 8202)
   || (c =? 8232) || (c =? 8233) || (c =? 8239) || (c =? 8287)
   || (c =? 12288))%N.

(** Drop the leading code points that satisfy [p]. *)
Fixpoint lstrip_by (p : N -> bool) (s : pystr) : pystr :=
  match s with
  | [] => []
  | c :: s' => if p c then lstrip_by p s' else s
  end.

(** Drop the trailing code points that satisfy [p]. *)
Fixpoint rstrip_by (p : N -> bool) (s : pystr) : pystr :=
  match s with
  | [] => []
  | c :: s' =>
      match rstrip_by p s' with
      | [] => if p c then [] else [c]
      | r => c :: r
      end
  end.

(** [s.strip()] *)
Definition strip (s : pystr) : pystr :=
  rstrip_by is_whitespace (lstrip_by is_whitespace s).

(** The code point of ['/']. *)
Definition slash : N := 47%N.

(** [s.rstrip("/")] *)
Definition rstrip_slash (s : pystr) : pystr :=
  rstrip_by (N.eqb slash) s.

Fixpoint is_prefix (p s : pystr) : bool :=
  match p, s with
  | [], _ => true
  | _ :: _, [] => false
  | a :: p', b :: s' => (a =? b)%N && is_prefix p' s'
  end.

(** [p in s] for two strings: substring test. *)
Fixpoint is_infix (p s : pystr) : bool :=
  is_prefix p s ||
  match s with
  | [] => false
  | _ :: s' => is_infix p s'
  end.

(** [sep.join(parts)] *)
Fixpoint join (sep : pystr) (parts : list pystr) : pystr :=
  match parts with
  | [] => []
  | [p] => p
  | p :: rest => p ++ sep ++ join sep rest
  end.

(* ================================================================== *)
(** ** Python objects decoded from JSON *)
(* ================================================================== *)

(** What [resp.json()] can return.  A [float] is kept as its IEEE-754
    binary64 bit pattern; a [dict] keeps its insertion order, and the
    keys of a decoded one are distinct. *)
Inductive json : Type :=
| JNull
| JBool (b : bool)
| JInt (n : Z)
| JFloat (bits : N)
| JStr (s : pystr)
| JList (items : list json)
| JDict (entries : list (pystr * json)).

(** [type(v).__name__] *)
Definition type_name (v : json) : pystr :=
  match v with
  | JNull => py "NoneType"
  | JBool _ => py "bool"
  | JInt _ => py "int"
  | JFloat _ => py "float"
  | JStr _ => py "str"
  | JList _ => py "list"
  | JDict _ => py "dict"
  end.

(** [bool(v)] *)
Definition truthy (v : json) : bool :=
  match v with
  | JNull => false
  | JBool b => b
  | JInt n => negb (n =? 0)%Z
  | JFloat bits => negb (N.land bits (2 ^ 63 - 1) =? 0)%N
  | JStr s => match s with [] => false | _ => true end
  | JList l => match l with [] => false | _ => true end
  | JDict d => match d with [] => false | _ => true end
  end.

(** Lookup in a dict: the entry of key [k], if any. *)
Fixpoint dict_lookup (k : pystr) (d : list (pystr * json)) : option json :=
  match d with
  | [] => None
  | (k', v) :: d' => if pystr_eqb k k' then Some v else dict_lookup k d'
  end.

Definition dict_mem (k : pystr) (d : list (pystr * json)) : bool :=
  match dict_lookup k d with Some _ => true | None => false end.

Section Repr.

(** [repr] of a [str] and of a [float] are builtins of the interpreter
    (quote selection, escapes by the Unicode database, shortest
    round-trip digits); they are taken as given. *)
Variable repr_str : pystr -> pystr.
Variable repr_float : N -> pystr.

(** [repr(v)] *)
Fixpoint py_repr (v : json) : pystr :=
  match v with
  | JNull => py "None"
  | JBool true => py "True"
  | JBool false => py "False"
  | JInt n => str_int n
  | JFloat bits => repr_float bits
  | JStr s => repr_str s
  | JList l => py "[" ++ join (py ", ") (map py_repr l) ++ py "]"
  | JDict d =>
      py "{" ++
      join (py ", ")
        (map (fun kv => match kv with
                        | (k, x) => repr_str k ++ py ": " ++ py_repr x
                        end) d)
      ++ py "}"
  end.

(** [str(v)], as an f-string formats a value. *)
Definition py_str (v : json) : pystr :=
  match v with
  | JStr s => s
  | _ => py_repr v
  end.

End Repr.

(* ================================================================== *)
(** ** Exceptions and the effect monad *)
(* ================================================================== *)

(** The exception classes that occur.  [KeyboardInterrupt] and
    [SystemExit] derive from [BaseException] only, the others from
    [Exception]. *)
Inductive exc_class : Type :=
| ConnectionError
| Timeout
| RequestException
| JSONDecodeError
| AttributeError
| TypeError
| KeyError
| KeyboardInterrupt
| SystemExit.

(** A raised exception: its class and [str(e)]. *)
Record py_exc : Type := mk_exc { exc_type : exc_class; exc_msg : pystr }.

(** [isinstance(e, Exception)]: what [except Exception] catches. *)
Definition is_Exception (e : py_exc) : bool :=
  match exc_type e with
  | KeyboardInterrupt | SystemExit => false
  | _ => true
  end.

(** The faults of the transport layer: the remote service could not be
    reached (name resolution and connection failures are
    [ConnectionError], expiry of the timeout is [Timeout], anything
    else of the library is [RequestException]). *)
Definition is_transport_fault (e : py_exc) : bool :=
  match exc_type e with
  | ConnectionError | Timeout | RequestException => true
  | _ => false
  end.

(** How a call ends: it returns a value or raises. *)
Inductive outcome (A : Type) : Type :=
| Returned (a : A)
| Raised (e : py_exc).

Arguments Returned {A} a.
Arguments Raised {A} e.

(** An uploaded file: [io.BytesIO]-like, with a read cursor. *)
Record uploaded_file : Type := mk_file {
  name : pystr;
  data : list N;
  cursor : nat
}.

(** [f.seek(n)] *)
Definition seek (f : uploaded_file) (n : nat) : uploaded_file :=
  mk_file (name f) (data f) n.

(** [f.read()]: the bytes from the cursor to the end. *)
Definition read (f : uploaded_file) : list N :=
  skipn (cursor f) (data f).

(** One part of a multipart upload: (field, (filename, bytes, type)). *)
Definition file_part : Type := (pystr * (pystr * list N * pystr))%type.

Inductive http_method : Type := GET | POST.

Inductive payload : Type :=
| NoBody
| Files (parts : list file_part)
| Json (body : json).

(** A call of [requests.get] or [requests.post]. *)
Record request : Type := mk_request {
  req_method : http_method;
  req_url : pystr;
  req_payload : payload;
  req_timeout : Z
}.

(** A [requests.Response], as far as the script looks at it:
    [status_code], [text], and what [json()] gives ([None] here when
    the body does not decode and [json()] raises). *)
Record response : Type := mk_response {
  status_code : Z;
  text : pystr;
  body_json : option json
}.

(** The Streamlit calls the handlers make. *)
Inductive st_call : Type :=
| st_spinner (label : pystr)
| st_success (body : pystr)
| st_warning (body : pystr)
| st_error (body : json)
| st_markdown (body : pystr)
| st_write (body : json)
| st_expander (label : pystr)
| st_code (body : json) (language : pystr).

(** What a run leaves behind: the requests issued and the widgets
    drawn, oldest first. *)
Record world : Type := mk_world {
  sent : list request;
  screen : list st_call
}.

Definition fresh : world := mk_world [] [].

Definition M (A : Type) : Type := world -> outcome A * world.

Definition ret {A} (a : A) : M A := fun w => (Returned a, w).

Definition bind {A B} (m : M A) (k : A -> M B) : M B :=
  fun w =>
    match m w with
    | (Returned a, w') => k a w'
    | (Raised e, w') => (Raised e, w')
    end.

Definition raise {A} (e : py_exc) : M A := fun w => (Raised e, w).

(** [try: body  except Exception as e: handler e] *)
Definition try_except {A} (body : M A) (handler : py_exc -> M A) : M A :=
  fun w =>
    match body w with
    | (Returned a, w') => (Returned a, w')
    | (Raised e, w') =>
        if is_Exception e then handler e w' else (Raised e, w')
    end.

Declare Scope py_scope.
Delimit Scope py_scope with py_m.
Notation "x <- m ;; k" := (bind m (fun x => k))
  (at level 61, m at next level, right associativity) : py_scope.
Notation "m ;;; k" := (bind m (fun _ => k))
  (at level 61, right associativity) : py_scope.
Local Open Scope py_scope.

(** A Streamlit call: appended to the screen. *)
Definition st (c : st_call) : M unit :=
  fun w => (Returned tt, mk_world (sent w) (screen w ++ [c])).

(* ================================================================== *)
(** ** Simulated surroundings *)
(* ================================================================== *)

(** [repr] of a [str] made of printable characters other than quotes
    and backslashes: the text between single quotes. *)
Definition plain_repr_str (s : pystr) : pystr := py "'" ++ s ++ py "'".

(** [repr] of the [float] zero; the simulated bodies hold no other. *)
Definition zero_repr_float (bits : N) : pystr := py "0.0".

(** An environment without the override, and one that sets it. *)
Definition environ_unset : pystr -> option pystr := fun _ => None.

Definition environ_with (url : pystr) : pystr -> option pystr :=
  fun k => if pystr_eqb k (py "BACKEND_URL") then Some url else None.

(** A backend that answers every request with [r], and one that cannot
    be reached. *)
Definition backend_replying (r : response) : request -> outcome response :=
  fun _ => Returned r.

Definition backend_down (e : py_exc) : request -> outcome response :=
  fun _ => Raised e.

Definition connection_refused : py_exc :=
  mk_exc ConnectionError (py "Connection refused").

Definition timed_out : py_exc :=
  mk_exc Timeout (py "Read timed out.").

(** A double-quoted token of a JSON text. *)
Definition dq (s : string) : pystr := [34%N] ++ py s ++ [34%N].

(** 200 with body {"chunks": 42} *)
Definition resp_chunks_42 : response :=
  mk_response 200
    (py "{" ++ dq "chunks" ++ py ": 42}")
    (Some (JDict [(py "chunks", JInt 42)])).

(** 500 with body {"detail": "index corrupt"} *)
Definition resp_index_corrupt : response :=
  mk_response 500
    (py "{" ++ dq "detail" ++ py ": " ++ dq "index corrupt" ++ py "}")
    (Some (JDict [(py "detail", JStr (py "index corrupt"))])).

(** 500 with body ["index corrupt"]: valid JSON, not an object. *)
Definition resp_bare_list : response :=
  mk_response 500
    (py "[" ++ dq "index corrupt" ++ py "]")
    (Some (JList [JStr (py "index corrupt")])).

(** 502 with an HTML page: not JSON. *)
Definition resp_bad_gateway : response :=
  mk_response 502 (py "<html>Bad Gateway</html>") None.

Definition chunk_a3 : json :=
  JDict [(py "text", JStr (py "t"));
         (py "metadata",
          JDict [(py "source_file", JStr (py "a.pdf"));
                 (py "chunk_index", JInt 3)])].

Definition body_answer : json :=
  JDict [(py "answer", JStr (py "X"));
         (py "context", JStr (py "Y"));
         (py "chunks", JList [chunk_a3])].

(** 200 with the full answer body of one chunk. *)
Definition resp_answer : response :=
  mk_response 200
    (py "{" ++ dq "answer" ++ py ": " ++ dq "X" ++ py ", "
     ++ dq "context" ++ py ": " ++ dq "Y" ++ py ", "
     ++ dq "chunks" ++ py ": [{" ++ dq "text" ++ py ": " ++ dq "t" ++ py ", "
     ++ dq "metadata" ++ py ": {" ++ dq "source_file" ++ py ": " ++ dq "a.pdf"
     ++ py ", " ++ dq "chunk_index" ++ py ": 3}}]}")
    (Some body_answer).


(** 200 with body {"error": "quota exceeded"} *)
Definition resp_ok_with_error : response :=
  mk_response 200
    (py "{" ++ dq "error" ++ py ": " ++ dq "quota exceeded" ++ py "}")
    (Some (JDict [(py "error", JStr (py "quota exceeded"))])).

(** A healthy backend: 200 to the probe, the chunk count to an upload,
    the full answer to a question. *)
Definition backend_healthy : request -> outcome response :=
  fun req =>
    match req_payload req with
    | NoBody => Returned (mk_response 200 (py "{}") (Some (JDict [])))
    | Files _ => Returned resp_chunks_42
    | Json _ => Returned resp_answer
    end.

(** A question and two blank ones. *)
Definition what_is_x : pystr := py "What is X?".

Definition blank_question : pystr := [32; 9; 160; 10]%N.

(** 200 with an HTML page: not JSON. *)
Definition resp_ok_html : response :=
  mk_response 200 (py "<html>It works</html>") None.

(** 200 with body []: valid JSON, not an object. *)
Definition resp_ok_array : response :=
  mk_response 200 (py "[]") (Some (JList [])).

(** A question with blanks around it. *)
Definition padded_question : pystr := py "  What is X? ".

(** A chunk with no metadata and one that is not an object. *)
Definition chunk_bare : json := JDict [(py "text", JStr (py "u"))].

Definition chunk_bad : json := JStr (py "oops").

Definition interrupt : py_exc := mk_exc KeyboardInterrupt [].

(** An uploaded PDF whose cursor was left at the end by an earlier read. *)
Definition a_pdf : uploaded_file :=
  mk_file (py "a.pdf") [37; 80; 68; 70]%N 4.

(* ================================================================== *)
(** ** The client *)
(* ================================================================== *)

Section Client.

Variable repr_str : pystr -> pystr.
Variable repr_float : N -> pystr.

(** [os.environ], read once when the script is loaded. *)
Variable environ : pystr -> option pystr.

(** The remote side: what each call of [requests] comes back with, a
    response or an exception. *)
Variable backend : request -> outcome response.

(** *** Operations on Python objects that can raise *)

Definition quoted (s : pystr) : pystr := py "'" ++ s ++ py "'".

(** [k in v] *)
Definition py_in (k : pystr) (v : json) : M bool :=
  match v with
  | JDict d => ret (dict_mem k d)
  | JList l =>
      ret (existsb (fun x => match x with
                             | JStr s => pystr_eqb k s
                             | _ => false
                             end) l)
  | JStr s => ret (is_infix k s)
  | _ =>
      raise (mk_exc TypeError
               (py "argument of type " ++ quoted (type_name v)
                ++ py " is not iterable"))
  end.

(** [v[k]] for a string [k].  The wording of the messages differs
    between interpreter versions; only the classes are relied on. *)
Definition py_getitem (v : json) (k : pystr) : M json :=
  match v with
  | JDict d =>
      match dict_lookup k d with
      | Some x => ret x
      | None => raise (mk_exc KeyError (repr_str k))
      end
  | JList _ =>
      raise (mk_exc TypeError
               (py "list indices must be integers or slices, not str"))
  | JStr _ =>
      raise (mk_exc TypeError (py "string indices must be integers"))
  | _ =>
      raise (mk_exc TypeError
               (quoted (type_name v) ++ py " object is not subscriptable"))
  end.

(** [v.get(k, default)] *)
Definition py_get (v : json) (k : pystr) (default : json) : M json :=
  match v with
  | JDict d =>
      match dict_lookup k d with
      | Some x => ret x
      | None => ret default
      end
  | _ =>
      raise (mk_exc AttributeError
               (quoted (type_name v) ++ py " object has no attribute 'get'"))
  end.

(** The items a [for] loop over [v] visits. *)
Definition py_iter (v : json) : M (list json) :=
  match v with
  | JList l => ret l
  | JDict d => ret (map (fun kv => JStr (fst kv)) d)
  | JStr s => ret (map (fun c => JStr [c]) s)
  | _ =>
      raise (mk_exc TypeError
               (quoted (type_name v) ++ py " object is not iterable"))
  end.

(** *** Backend locator *)

Definition DEFAULT_BACKEND_URL : pystr :=
  py "https://ai-study-assistant-7oub.onrender.com".

(** [os.getenv(key, default)] *)
Definition getenv (key default : pystr) : pystr :=
  match environ key with
  | Some v => v
  | None => default
  end.

Definition BACKEND_URL : pystr :=
  rstrip_slash (getenv (py "BACKEND_URL") DEFAULT_BACKEND_URL).

(** *** Transport client *)

(** [requests.get] / [requests.post]: the call is recorded, then the
    backend decides how it ends. *)
Definition requests_call (r : request) : M response :=
  fun w => (backend r, mk_world (sent w ++ [r]) (screen w)).

Definition requests_get (url : pystr) (timeout : Z) : M response :=
  requests_call (mk_request GET url NoBody timeout).

Definition requests_post (url : pystr) (p : payload) (timeout : Z)
  : M response :=
  requests_call (mk_request POST url p timeout).

(** [resp.json()].  The text of the decode error depends on the body
    and the position of the fault; only its class is relied on. *)
Definition resp_json (resp : response) : M json :=
  match body_json resp with
  | Some j => ret j
  | None => raise (mk_exc JSONDecodeError (py "Expecting value"))
  end.

Definition check_backend_health : M bool :=
  try_except
    (resp <- requests_get (BACKEND_URL ++ py "/health") 10 ;;
     ret (status_code resp =? 200)%Z)
    (fun _ => ret false).

(** Where control is after a [try] whose handler returns from the
    function: either the function has returned, or it goes on. *)
Inductive flow (R A : Type) : Type :=
| Return (r : R)
| Continue (a : A).

Arguments Return {R A} r.
Arguments Continue {R A} a.

Definition error_dict (msg : pystr) : json :=
  JDict [(py "error", JStr msg)].

Definition build_index (files : list uploaded_file) : M json :=
  match files with
  | [] => ret (error_dict (py "Please upload at least one PDF."))
  | _ :: _ =>
      let files_payload : list file_part :=
        map (fun f =>
               let f0 := seek f 0 in
               (py "files", (name f0, read f0, py "application/pdf")))
            files in
      attempt <-
        try_except
          (resp <- requests_post (BACKEND_URL ++ py "/build_index")
                     (Files files_payload) 300 ;;
           ret (Continue resp))
          (fun e =>
             ret (Return
                    (error_dict (py "Failed to reach backend: " ++ exc_msg e)))) ;;
      match attempt with
      | Return r => ret r
      | Continue resp =>
          if negb (status_code resp =? 200)%Z then
            data <- try_except (resp_json resp)
                      (fun _ => ret (JDict [(py "detail", JStr (text resp))])) ;;
            detail <- py_get data (py "detail") data ;;
            ret (error_dict
                   (py "Backend error (" ++ str_int (status_code resp)
                    ++ py "): " ++ py_str repr_str repr_float detail))
          else resp_json resp
      end
  end.

Definition ask_question (question : pystr) : M json :=
  match strip question with
  | [] => ret (error_dict (py "Please enter a question."))
  | _ :: _ =>
      let payload := JDict [(py "question", JStr question)] in
      attempt <-
        try_except
          (resp <- requests_post (BACKEND_URL ++ py "/ask")
                     (Json payload) 120 ;;
           ret (Continue resp))
          (fun e =>
             ret (Return
                    (error_dict (py "Failed to reach backend: " ++ exc_msg e)))) ;;
      match attempt with
      | Return r => ret r
      | Continue resp =>
          if negb (status_code resp =? 200)%Z then
            data <- try_except (resp_json resp)
                      (fun _ => ret (JDict [(py "detail", JStr (text resp))])) ;;
            detail <- py_get data (py "detail") data ;;
            ret (error_dict
                   (py "Backend error (" ++ str_int (status_code resp)
                    ++ py "): " ++ py_str repr_str repr_float detail))
          else resp_json resp
      end
  end.

(** *** Interaction controller *)

(** Code points of the non-ASCII characters of the labels. *)
Definition check_mark : pystr := [9989%N].
Definition magnifier : pystr := [128269%N].
Definition page_icon : pystr := [128196%N].
Definition em_dash : pystr := [8212%N].
Definition cross_mark : pystr := [10060%N].
Definition newline : pystr := [10%N].

(** The sidebar button "Check backend health". *)
Definition on_health_click : M unit :=
  ok <- check_backend_health ;;
  if ok then st (st_success (py "Backend is healthy " ++ check_mark))
  else st (st_error (JStr (py "Backend is not reachable " ++ cross_mark))).

(** What is drawn for a result of [build_index]. *)
Definition show_build_result (result : json) : M unit :=
  failed <- py_in (py "error") result ;;
  if (failed : bool) then
    msg <- py_getitem result (py "error") ;;
    st (st_error msg)
  else
    chunks <- py_get result (py "chunks") (JInt 0) ;;
    st (st_success
          (py "Index built successfully " ++ check_mark
           ++ newline ++ newline
           ++ py "**Total chunks indexed:** "
           ++ py_str repr_str repr_float chunks)).

(** The button "Build / Rebuild Index". *)
Definition on_build_click (uploaded_files : list uploaded_file) : M unit :=
  match uploaded_files with
  | [] =>
      st (st_warning
            (py "Please upload at least one PDF before building the index."))
  | _ :: _ =>
      st (st_spinner (py "Building index from your PDFs...")) ;;;
      result <- build_index uploaded_files ;;
      show_build_result result
  end.

(** The body of the loop over the retrieved chunks, [i] counting
    from where [enumerate] starts. *)
Fixpoint show_chunks (i : Z) (chunks : list json) : M unit :=
  match chunks with
  | [] => ret tt
  | ch :: rest =>
      m <- py_get ch (py "metadata") (JDict []) ;;
      let meta := if truthy m then m else JDict [] in
      src <- py_get meta (py "source_file") (JStr (py "unknown")) ;;
      idx <- py_get meta (py "chunk_index") (JInt (-1)) ;;
      st (st_markdown
            (py "**Chunk " ++ str_int i ++ py "**  " ++ newline
             ++ py "*Source:* `" ++ py_str repr_str repr_float src
             ++ py "` " ++ em_dash ++ py " *chunk index:* `"
             ++ py_str repr_str repr_float idx ++ py "`")) ;;;
      txt <- py_get ch (py "text") (JStr []) ;;
      st (st_write txt) ;;;
      st (st_markdown (py "---")) ;;;
      show_chunks (i + 1) rest
  end.

(** What is drawn for a result of [ask_question]. *)
Definition show_ask_result (result : json) : M unit :=
  failed <- py_in (py "error") result ;;
  if (failed : bool) then
    msg <- py_getitem result (py "error") ;;
    st (st_error msg)
  else
    st (st_markdown (py "### " ++ check_mark ++ py " Answer")) ;;;
    answer <- py_get result (py "answer") (JStr (py "No answer returned.")) ;;
    st (st_write answer) ;;;
    st (st_expander (magnifier ++ py " Show retrieved context")) ;;;
    context <- py_get result (py "context") (JStr []) ;;
    st (st_code context (py "markdown")) ;;;
    chunks <- py_get result (py "chunks") (JList []) ;;
    if truthy chunks then
      st (st_expander (page_icon ++ py " Show Retrieved Chunks")) ;;;
      items <- py_iter chunks ;;
      show_chunks 1 items
    else ret tt.

(** The button "Ask". *)
Definition on_ask_click (question : pystr) : M unit :=
  st (st_spinner (py "Thinking...")) ;;;
  result <- ask_question question ;;
  show_ask_result result.

(** *** The requests on the wire and the log *)

(** The probe of [check_backend_health]. *)
Definition health_request : request :=
  mk_request GET (BACKEND_URL ++ py "/health") NoBody 10.

(** The upload of [build_index]: every file whole, from its start. *)
Definition build_request (files : list uploaded_file) : request :=
  mk_request POST (BACKEND_URL ++ py "/build_index")
    (Files (map (fun f => (py "files", (name f, data f, py "application/pdf")))
                files))
    300.

(** The query of [ask_question]: the question and nothing else. *)
Definition ask_request (question : pystr) : request :=
  mk_request POST (BACKEND_URL ++ py "/ask")
    (Json (JDict [(py "question", JStr question)])) 120.

(** The world after one more request, and after more Streamlit calls. *)
Definition after_request (r : request) (w : world) : world :=
  mk_world (sent w ++ [r]) (screen w).

Definition after_drawing (calls : list st_call) (w : world) : world :=
  mk_world (sent w) (screen w ++ calls).

(** The reply is a response, or an exception that [except Exception]
    catches. *)
Definition handled (reply : outcome response) : bool :=
  match reply with
  | Returned _ => true
  | Raised e => is_Exception e
  end.

(** Two replies fail for the same cause: two caught faults with the
    same [str(e)], or one and the same response of status other than
    200. *)
Definition same_failure (a b : outcome response) : Prop :=
  match a, b with
  | Raised e1, Raised e2 =>
      is_Exception e1 = true /\ is_Exception e2 = true
      /\ exc_msg e1 = exc_msg e2
  | Returned r1, Returned r2 => r1 = r2 /\ status_code r2 <> 200%Z
  | _, _ => False
  end.

(** The override rule in the words of the specification: the override
    when present and non-empty, the default otherwise, trailing
    separators stripped. *)
Definition resolve_spec : pystr :=
  rstrip_slash
    match environ (py "BACKEND_URL") with
    | Some (c :: v) => c :: v
    | _ => DEFAULT_BACKEND_URL
    end.

(** The error result of a response with a status other than 200, by
    what [resp.json()] gives: the [detail] entry of an object (the
    whole object when it has none), the raw text when the body does not
    decode; any other JSON value has no [get] and the call raises. *)
Definition backend_fault (r : response) : outcome json :=
  let render detail :=
    Returned
      (error_dict
         (py "Backend error (" ++ str_int (status_code r) ++ py "): "
          ++ py_str repr_str repr_float detail)) in
  match body_json r with
  | None => render (JStr (text r))
  | Some (JDict d) =>
      match dict_lookup (py "detail") d with
      | Some v => render v
      | None => render (JDict d)
      end
  | Some v =>
      Raised (mk_exc AttributeError
                (quoted (type_name v) ++ py " object has no attribute 'get'"))
  end.

(** The body of a 200 response, decoded. *)
Definition decoded_body (r : response) : outcome json :=
  match body_json r with
  | Some j => Returned j
  | None => Raised (mk_exc JSONDecodeError (py "Expecting value"))
  end.

(** How an operation ends on a reply. *)
Definition reply_outcome (reply : outcome response) : outcome json :=
  match reply with
  | Raised e =>
      if is_Exception e
      then Returned (error_dict (py "Failed to reach backend: " ++ exc_msg e))
      else Raised e
  | Returned r =>
      if (status_code r =? 200)%Z then decoded_body r else backend_fault r
  end.

(** [d.get(k, default)] on a dict, as a value. *)
Definition dict_get (k : pystr) (default : json) (d : list (pystr * json))
  : json :=
  match dict_lookup k d with
  | Some v => v
  | None => default
  end.

(** The call draws an error box. *)
Definition is_error_call (c : st_call) : bool :=
  match c with
  | st_error _ => true
  | _ => false
  end.

(** The four calls that open the success view of an answer. *)
Definition answer_view (d : list (pystr * json)) : list st_call :=
  [ st_markdown (py "### " ++ check_mark ++ py " Answer");
    st_write (dict_get (py "answer") (JStr (py "No answer returned.")) d);
    st_expander (magnifier ++ py " Show retrieved context");
    st_code (dict_get (py "context") (JStr []) d) (py "markdown") ].

(** The success box of the build view. *)
Definition build_view (d : list (pystr * json)) : list st_call :=
  [ st_success
      (py "Index built successfully " ++ check_mark ++ newline ++ newline
       ++ py "**Total chunks indexed:** "
       ++ py_str repr_str repr_float (dict_get (py "chunks") (JInt 0) d)) ].

(** [isinstance(v, dict)] *)
Definition is_dict (v : json) : bool :=
  match v with
  | JDict _ => true
  | _ => false
  end.

(** The question has a code point that is not white. *)
Definition has_text (q : pystr) : bool :=
  existsb (fun c => negb (is_whitespace c)) q.

(** What the error message of a non-200 response shows after the
    status, when there is something to show: the raw text of a body
    that is not JSON, the [detail] entry of an object, the object
    itself when it has no such entry. *)
Definition fault_detail (r : response) : option json :=
  match body_json r with
  | None => Some (JStr (text r))
  | Some (JDict d) => Some (dict_get (py "detail") (JDict d) d)
  | Some _ => None
  end.

(** The failure box for a message. *)
Definition failure_box (msg : pystr) : list st_call := [st_error (JStr msg)].

(** [enumerate(l, start)] *)
Fixpoint enumerate (start : Z) (l : list json) : list (Z * json) :=
  match l with
  | [] => []
  | x :: l' => (start, x) :: enumerate (start + 1) l'
  end.

(** The metadata a chunk is shown with: its [metadata] entry, or the
    empty dict when that is missing or falsy. *)
Definition chunk_meta (d : list (pystr * json)) : json :=
  let m := dict_get (py "metadata") (JDict []) d in
  if truthy m then m else JDict [].

(** A chunk the loop can show: a dict whose metadata is a dict. *)
Definition chunk_ok (ch : json) : bool :=
  match ch with
  | JDict d => is_dict (chunk_meta d)
  | _ => false
  end.

(** The three calls that show chunk number [i]. *)
Definition chunk_calls (ich : Z * json) : list st_call :=
  match ich with
  | (i, JDict d) =>
      match chunk_meta d with
      | JDict md =>
          [ st_markdown
              (py "**Chunk " ++ str_int i ++ py "**  " ++ newline
               ++ py "*Source:* `"
               ++ py_str repr_str repr_float
                    (dict_get (py "source_file") (JStr (py "unknown")) md)
               ++ py "` " ++ em_dash ++ py " *chunk index:* `"
               ++ py_str repr_str repr_float
                    (dict_get (py "chunk_index") (JInt (-1)) md)
               ++ py "`");
            st_write (dict_get (py "text") (JStr []) d);
            st_markdown (py "---") ]
      | _ => []
      end
  | _ => []
  end.

(** The exception of a call of [get] on an object that has none. *)
Definition no_get (v : json) : py_exc :=
  mk_exc AttributeError
    (quoted (type_name v) ++ py " object has no attribute 'get'").

(* ------------------------------------------------------------------ *)
(** *** Stripping *)
(* ------------------------------------------------------------------ *)

Lemma lstrip_by_all (p : N -> bool) (s : pystr) :
  forallb p s = true -> lstrip_by p s = [].
Proof.
  induction s as [|c s IH]; simpl; [reflexivity|].
  intros H. apply andb_true_iff in H as [Hc Hs].
  rewrite Hc. now apply IH.
Qed.

Lemma rstrip_by_all (p : N -> bool) (s : pystr) :
  forallb p s = true -> rstrip_by p s = [].
Proof.
  induction s as [|c s IH]; simpl; [reflexivity|].
  intros H. apply andb_true_iff in H as [Hc Hs].
  rewrite (IH Hs), Hc. reflexivity.
Qed.

Lemma rstrip_by_nil_inv (p : N -> bool) (s : pystr) :
  rstrip_by p s = [] -> forallb p s = true.
Proof.
  induction s as [|c s IH]; simpl; [reflexivity|].
  destruct (rstrip_by p s) as [|r rs] eqn:E.
  - destruct (p c) eqn:Hc; [|discriminate].
    intros _. now rewrite IH.
  - discriminate.
Qed.

Lemma lstrip_by_forallb (p : N -> bool) (s : pystr) :
  forallb p (lstrip_by p s) = true -> forallb p s = true.
Proof.
  induction s as [|c s IH]; simpl; [reflexivity|].
  destruct (p c) eqn:Hc; simpl.
  - exact IH.
  - rewrite Hc. discriminate.
Qed.

(** [strip] leaves nothing exactly when every code point is white. *)
Lemma strip_nil_iff (s : pystr) :
  strip s = [] <-> forallb is_whitespace s = true.
Proof.
  unfold strip. split.
  - intros H. apply lstrip_by_forallb. now apply rstrip_by_nil_inv.
  - intros H. rewrite (lstrip_by_all _ _ H). reflexivity.
Qed.

(** What [rstrip_by] removes is a run of code points satisfying [p]. *)
Lemma rstrip_by_split (p : N -> bool) (s : pystr) :
  exists t, s = rstrip_by p s ++ t /\ forallb p t = true.
Proof.
  induction s as [|c s (t & Hs & Ht)]; simpl.
  - exists []. split; reflexivity.
  - destruct (rstrip_by p s) as [|r rs] eqn:E.
    + destruct (p c) eqn:Hc.
      * exists (c :: t). simpl in *. rewrite Hc, Ht. now rewrite Hs at 1.
      * exists t. simpl in *. split; [now rewrite Hs at 1 | exact Ht].
    + exists t. split; [|exact Ht].
      simpl. now rewrite Hs at 1.
Qed.

(** What [rstrip_by] keeps does not end in a code point satisfying [p]. *)
Lemma rstrip_by_last (p : N -> bool) (s : pystr) (d : N) :
  rstrip_by p s = [] \/ p (last (rstrip_by p s) d) = false.
Proof.
  induction s as [|c s IH]; simpl; [now left|].
  destruct (rstrip_by p s) as [|r rs] eqn:E.
  - destruct (p c) eqn:Hc; [now left | right; exact Hc].
  - right. destruct IH as [IH|IH]; [discriminate|]. exact IH.
Qed.

Lemma forallb_slash_repeat (t : pystr) :
  forallb (N.eqb slash) t = true -> t = repeat slash (List.length t).
Proof.
  induction t as [|c t IH]; cbn [forallb repeat List.length]; [reflexivity|].
  intros H. apply andb_true_iff in H as [Hc Ht].
  apply N.eqb_eq in Hc. subst c. now rewrite <- IH.
Qed.

(* ------------------------------------------------------------------ *)
(** *** How the two operations end, by the backend's reply *)
(* ------------------------------------------------------------------ *)

Lemma build_index_run (f : uploaded_file) (fs : list uploaded_file) (w : world) :
  build_index (f :: fs) w =
  (reply_outcome (backend (build_request (f :: fs))),
   after_request (build_request (f :: fs)) w).
Proof.
  unfold build_index, bind, try_except, requests_post, requests_call.
  change (mk_request POST (BACKEND_URL ++ py "/build_index") _ 300)
    with (build_request (f :: fs)).
  fold (after_request (build_request (f :: fs)) w).
  unfold reply_outcome, backend_fault, decoded_body.
  destruct (backend (build_request (f :: fs))) as [r|e].
  - unfold ret. destruct (status_code r =? 200)%Z; cbn [negb].
    + unfold resp_json. destruct (body_json r); reflexivity.
    + unfold resp_json, raise.
      destruct (body_json r) as [j|]; cbn.
      * destruct j; try reflexivity.
        unfold py_get, ret.
        destruct (dict_lookup _ entries); reflexivity.
      * reflexivity.
  - destruct (is_Exception e); reflexivity.
Qed.

Lemma ask_question_run (q : pystr) (w : world) :
  strip q <> [] ->
  ask_question q w =
  (reply_outcome (backend (ask_request q)), after_request (ask_request q) w).
Proof.
  intros Hq. unfold ask_question.
  destruct (strip q) as [|c s]; [contradiction|].
  unfold bind, try_except, requests_post, requests_call.
  change (mk_request POST (BACKEND_URL ++ py "/ask") _ 120)
    with (ask_request q).
  fold (after_request (ask_request q) w).
  unfold reply_outcome, backend_fault, decoded_body.
  destruct (backend (ask_request q)) as [r|e].
  - unfold ret. destruct (status_code r =? 200)%Z; cbn [negb].
    + unfold resp_json. destruct (body_json r); reflexivity.
    + unfold resp_json, raise.
      destruct (body_json r) as [j|]; cbn.
      * destruct j; try reflexivity.
        unfold py_get, ret.
        destruct (dict_lookup _ entries); reflexivity.
      * reflexivity.
  - destruct (is_Exception e); reflexivity.
Qed.

(* ------------------------------------------------------------------ *)
(** *** Validation faults: nothing is sent *)
(* ------------------------------------------------------------------ *)

(** C4. With no document, [build_index] returns an error result and
    leaves the world as it was: no request is issued. *)
Theorem build_index_no_files (w : world) :
  build_index [] w =
  (Returned (error_dict (py "Please upload at least one PDF.")), w)
  /\ sent (snd (build_index [] w)) = sent w.
Proof. split; reflexivity. Qed.

(** C5. A question that is empty or made of whitespace only is answered
    with an error result, and no request is issued. *)
Theorem ask_question_blank (q : pystr) (w : world) :
  forallb is_whitespace q = true ->
  ask_question q w =
  (Returned (error_dict (py "Please enter a question.")), w)
  /\ sent (snd (ask_question q w)) = sent w.
Proof.
  intros H. apply strip_nil_iff in H.
  unfold ask_question. rewrite H. split; reflexivity.
Qed.

(* ------------------------------------------------------------------ *)
(** *** Backend locator *)
(* ------------------------------------------------------------------ *)

(** C6, as the code has it. The override is taken whenever it is
    present, the empty one included; the default only when it is
    absent.  What is removed from the value is a run of trailing
    slashes, and what is left does not end in one. *)
Theorem backend_url_resolution :
  match environ (py "BACKEND_URL") with
  | Some v =>
      BACKEND_URL = rstrip_slash v
      /\ exists k, v = BACKEND_URL ++ repeat slash k
  | None => BACKEND_URL = DEFAULT_BACKEND_URL
  end
  /\ N.eqb slash (last BACKEND_URL 0%N) = false.
Proof.
  unfold BACKEND_URL, getenv, rstrip_slash. split.
  - destruct (environ (py "BACKEND_URL")) as [v|].
    + split; [reflexivity|].
      destruct (rstrip_by_split (N.eqb slash) v) as (t & Hv & Ht).
      exists (List.length t). now rewrite <- (forallb_slash_repeat t Ht).
    + vm_compute. reflexivity.
  - match goal with
    | |- context [rstrip_by ?p ?s] =>
        destruct (rstrip_by_last p s 0%N) as [H|H]
    end.
    + rewrite H. reflexivity.
    + exact H.
Qed.

(* ------------------------------------------------------------------ *)
(** *** Health probe *)
(* ------------------------------------------------------------------ *)

(** C3. Whatever the probe comes back with, a response or a fault that
    [except Exception] catches, [check_backend_health] returns a
    boolean, and it is [true] exactly for a response of status 200. *)
Theorem check_backend_health_bool (w : world) :
  handled (backend health_request) = true ->
  exists b : bool,
    check_backend_health w = (Returned b, after_request health_request w)
    /\ (b = true <->
        exists r, backend health_request = Returned r
                  /\ status_code r = 200%Z).
Proof.
  unfold check_backend_health, try_except, bind, requests_get, requests_call.
  fold health_request. fold (after_request health_request w).
  destruct (backend health_request) as [r|e]; cbn [handled].
  - intros _. exists (status_code r =? 200)%Z. split; [reflexivity|].
    rewrite Z.eqb_eq. split.
    + intros H. now exists r.
    + intros (r' & Hr & H). now inversion Hr; subst.
  - intros He. rewrite He. exists false. split; [reflexivity|].
    split; [discriminate|]. intros (r & Hr & _). discriminate.
Qed.

(* ------------------------------------------------------------------ *)
(** *** Transport faults and backend faults *)
(* ------------------------------------------------------------------ *)

Lemma transport_fault_is_Exception (e : py_exc) :
  is_transport_fault e = true -> is_Exception e = true.
Proof.
  unfold is_transport_fault, is_Exception.
  destruct (exc_type e); intros H; try reflexivity; discriminate.
Qed.

(** C8. When the backend cannot be reached, each operation returns the
    error result {"error": "Failed to reach backend: <cause>"}, after
    the one request it tried; nothing is raised. *)
Theorem transport_fault_reported
  (f : uploaded_file) (fs : list uploaded_file) (q : pystr)
  (w : world) (e : py_exc) :
  is_transport_fault e = true ->
  (backend (build_request (f :: fs)) = Raised e ->
   build_index (f :: fs) w =
     (Returned
        (JDict [(py "error",
                 JStr (py "Failed to reach backend: " ++ exc_msg e))]),
      after_request (build_request (f :: fs)) w))
  /\ (strip q <> [] ->
      backend (ask_request q) = Raised e ->
      ask_question q w =
        (Returned
           (JDict [(py "error",
                    JStr (py "Failed to reach backend: " ++ exc_msg e))]),
         after_request (ask_request q) w)).
Proof.
  intros He. apply transport_fault_is_Exception in He. split.
  - intros Hb. rewrite build_index_run, Hb.
    unfold reply_outcome. rewrite He. reflexivity.
  - intros Hq Ha. rewrite (ask_question_run q w Hq), Ha.
    unfold reply_outcome. rewrite He. reflexivity.
Qed.

(** The error result of a response whose status is not 200. *)
Lemma backend_fault_reported
  (f : uploaded_file) (fs : list uploaded_file) (q : pystr)
  (w : world) (r : response) :
  status_code r <> 200%Z ->
  strip q <> [] ->
  backend (build_request (f :: fs)) = Returned r ->
  backend (ask_request q) = Returned r ->
  build_index (f :: fs) w =
    (backend_fault r, after_request (build_request (f :: fs)) w)
  /\ ask_question q w =
    (backend_fault r, after_request (ask_request q) w).
Proof.
  intros Hs Hq Hb Ha. apply Z.eqb_neq in Hs.
  rewrite build_index_run, (ask_question_run q w Hq), Hb, Ha.
  unfold reply_outcome. rewrite Hs. split; reflexivity.
Qed.

(** On an object with a [detail] string, and on a body that is not
    JSON, the message is "Backend error (<status>): <detail>". *)
Lemma backend_fault_detail (r : response) (d : list (pystr * json))
  (msg : pystr) :
  body_json r = Some (JDict d) ->
  dict_lookup (py "detail") d = Some (JStr msg) ->
  backend_fault r =
  Returned (error_dict (py "Backend error (" ++ str_int (status_code r)
                        ++ py "): " ++ msg)).
Proof.
  intros Hj Hd. unfold backend_fault. rewrite Hj, Hd. reflexivity.
Qed.

Lemma backend_fault_raw_text (r : response) :
  body_json r = None ->
  backend_fault r =
  Returned (error_dict (py "Backend error (" ++ str_int (status_code r)
                        ++ py "): " ++ text r)).
Proof.
  intros Hj. unfold backend_fault. rewrite Hj. reflexivity.
Qed.

(** X19. When the two requests fail for the same cause, a fault with
    the same cause text or the same response of status other than 200,
    the two operations end the same way: with the same error result
    for a fault and for a body that is an object or is not JSON, and
    with the same [AttributeError] for a JSON body that is not an
    object. *)
Theorem error_results_identical
  (f : uploaded_file) (fs : list uploaded_file) (q : pystr) (w : world) :
  strip q <> [] ->
  same_failure (backend (build_request (f :: fs))) (backend (ask_request q)) ->
  fst (build_index (f :: fs) w) = fst (ask_question q w)
  /\ match backend (ask_request q) with
     | Raised e =>
         fst (ask_question q w) =
         Returned
           (JDict [(py "error",
                    JStr (py "Failed to reach backend: " ++ exc_msg e))])
     | Returned r =>
         match fault_detail r with
         | Some v =>
             fst (ask_question q w) =
             Returned
               (JDict [(py "error",
                        JStr (py "Backend error ("
                              ++ str_int (status_code r) ++ py "): "
                              ++ py_str repr_str repr_float v))])
         | None =>
             exists x,
               body_json r = Some x /\ is_dict x = false
               /\ fst (ask_question q w) = Raised (no_get x)
         end
     end.
Proof.
  intros Hq Hsame.
  rewrite build_index_run, (ask_question_run q w Hq). cbn [fst].
  destruct (backend (build_request (f :: fs))) as [r1|e1],
           (backend (ask_request q)) as [r2|e2];
    cbn [same_failure] in Hsame; try contradiction.
  - destruct Hsame as [-> Hs]. apply Z.eqb_neq in Hs.
    cbn [reply_outcome]. rewrite Hs. split; [reflexivity|].
    unfold fault_detail, backend_fault, dict_get.
    destruct (body_json r2) as [j|]; [|reflexivity].
    destruct j; try (eexists; repeat split; reflexivity).
    destruct (dict_lookup (py "detail") entries); reflexivity.
  - destruct Hsame as (H1 & H2 & Hm).
    cbn [reply_outcome]. rewrite H1, H2, Hm. split; reflexivity.
Qed.

(* ------------------------------------------------------------------ *)
(** *** Success *)
(* ------------------------------------------------------------------ *)

(** C9. On a response of status 200 the decoded body is what the
    operation returns, as it is: nothing is added, dropped or
    reordered. *)
Theorem success_body_unmodified
  (f : uploaded_file) (fs : list uploaded_file) (q : pystr) (w : world)
  (rb ra : response) (jb ja : json) :
  strip q <> [] ->
  backend (build_request (f :: fs)) = Returned rb ->
  status_code rb = 200%Z -> body_json rb = Some jb ->
  backend (ask_request q) = Returned ra ->
  status_code ra = 200%Z -> body_json ra = Some ja ->
  build_index (f :: fs) w =
    (Returned jb, after_request (build_request (f :: fs)) w)
  /\ ask_question q w = (Returned ja, after_request (ask_request q) w).
Proof.
  intros Hq Hb Hsb Hjb Ha Hsa Hja.
  rewrite build_index_run, (ask_question_run q w Hq), Hb, Ha.
  unfold reply_outcome, decoded_body.
  rewrite Hsb, Hsa, Hjb, Hja. split; reflexivity.
Qed.

(* ------------------------------------------------------------------ *)
(** *** Interaction controller *)
(* ------------------------------------------------------------------ *)

Lemma after_drawing_nil (w : world) : after_drawing [] w = w.
Proof. destruct w. unfold after_drawing. cbn. now rewrite app_nil_r. Qed.

Lemma after_drawing_app (a b : list st_call) (w : world) :
  after_drawing b (after_drawing a w) = after_drawing (a ++ b) w.
Proof. unfold after_drawing. cbn. now rewrite app_assoc. Qed.

Lemma st_run (c : st_call) (w : world) :
  st c w = (Returned tt, after_drawing [c] w).
Proof. reflexivity. Qed.

(** [get] touches neither the log nor the screen. *)
Lemma py_get_pure (v : json) (k : pystr) (default : json) (w : world) :
  exists o, py_get v k default w = (o, w).
Proof.
  destruct v; cbn; try (eexists; reflexivity).
  destruct (dict_lookup k entries); eexists; reflexivity.
Qed.

Lemma py_get_dict (d : list (pystr * json)) (k : pystr) (default : json)
  (w : world) :
  py_get (JDict d) k default w = (Returned (dict_get k default d), w).
Proof.
  unfold py_get, dict_get. destruct (dict_lookup k d); reflexivity.
Qed.

(** The loop over the chunks only adds to the screen, and never an
    error box. *)
Lemma show_chunks_draws (items : list json) :
  forall (i : Z) (w : world),
  exists o calls,
    show_chunks i items w = (o, after_drawing calls w)
    /\ existsb is_error_call calls = false.
Proof.
  induction items as [|ch rest IH]; intros i w.
  - exists (Returned tt), []. rewrite after_drawing_nil. now split.
  - cbn [show_chunks]. unfold bind at 1.
    destruct (py_get_pure ch (py "metadata") (JDict []) w) as [o1 E1].
    rewrite E1. destruct o1 as [m|e];
      [|exists (Raised e), []; rewrite after_drawing_nil; now split].
    unfold bind at 1.
    match goal with
    | |- context [py_get ?meta (py "source_file") ?dflt w] =>
        destruct (py_get_pure meta (py "source_file") dflt w) as [o2 E2];
        rewrite E2
    end.
    destruct o2 as [src|e];
      [|exists (Raised e), []; rewrite after_drawing_nil; now split].
    unfold bind at 1.
    match goal with
    | |- context [py_get ?meta (py "chunk_index") ?dflt w] =>
        destruct (py_get_pure meta (py "chunk_index") dflt w) as [o3 E3];
        rewrite E3
    end.
    destruct o3 as [idx|e];
      [|exists (Raised e), []; rewrite after_drawing_nil; now split].
    unfold bind at 1. rewrite st_run.
    unfold bind at 1.
    match goal with
    | |- context [py_get ch (py "text") ?dflt ?w1] =>
        destruct (py_get_pure ch (py "text") dflt w1) as [o4 E4];
        rewrite E4
    end.
    destruct o4 as [txt|e]; [|eexists (Raised e), [_]; now split].
    unfold bind at 1. rewrite st_run.
    unfold bind at 1. rewrite st_run.
    rewrite !after_drawing_app.
    match goal with
    | |- context [show_chunks ?j rest ?w1] =>
        destruct (IH j w1) as (o & calls & E & Hc)
    end.
    rewrite E, after_drawing_app.
    eexists o, _. split; [reflexivity|].
    cbn [app existsb is_error_call orb]. exact Hc.
Qed.

Lemma py_iter_pure (v : json) (w : world) :
  exists o, py_iter v w = (o, w).
Proof. destruct v; cbn; eexists; reflexivity. Qed.

Lemma dict_mem_lookup (k : pystr) (d : list (pystr * json)) :
  dict_mem k d = match dict_lookup k d with Some _ => true | None => false end.
Proof. reflexivity. Qed.

(** The view of a dict with an [error] entry: one error box. *)
Lemma show_result_failure (d : list (pystr * json)) (v : json) (w : world) :
  dict_lookup (py "error") d = Some v ->
  show_build_result (JDict d) w = (Returned tt, after_drawing [st_error v] w)
  /\ show_ask_result (JDict d) w = (Returned tt, after_drawing [st_error v] w).
Proof.
  intros H.
  unfold show_build_result, show_ask_result, bind, py_in, py_getitem, ret.
  rewrite dict_mem_lookup, H. split; reflexivity.
Qed.

(** The view of a dict without one, after a build. *)
Lemma show_build_result_success (d : list (pystr * json)) (w : world) :
  dict_lookup (py "error") d = None ->
  show_build_result (JDict d) w = (Returned tt, after_drawing (build_view d) w).
Proof.
  intros H. unfold show_build_result, bind at 1, py_in, ret.
  rewrite dict_mem_lookup, H.
  unfold bind. rewrite py_get_dict. reflexivity.
Qed.

(** The view of a dict without one, after a question: the answer, the
    context, then the chunks, if any. *)
Lemma show_ask_result_success (d : list (pystr * json)) (w : world) :
  dict_lookup (py "error") d = None ->
  exists o rest,
    show_ask_result (JDict d) w = (o, after_drawing (answer_view d ++ rest) w)
    /\ existsb is_error_call rest = false
    /\ (dict_lookup (py "chunks") d = None -> o = Returned tt /\ rest = []).
Proof.
  intros H. unfold show_ask_result, bind at 1, py_in, ret.
  rewrite dict_mem_lookup, H.
  unfold bind at 1. rewrite st_run.
  unfold bind at 1. rewrite py_get_dict.
  unfold bind at 1. rewrite st_run.
  unfold bind at 1. rewrite st_run.
  unfold bind at 1. rewrite py_get_dict.
  unfold bind at 1. rewrite st_run.
  unfold bind at 1. rewrite py_get_dict.
  rewrite !after_drawing_app. cbn [app].
  fold (answer_view d).
  set (chunks := dict_get (py "chunks") (JList []) d).
  assert (Hmiss : dict_lookup (py "chunks") d = None -> truthy chunks = false).
  { intros Hn. subst chunks. unfold dict_get. now rewrite Hn. }
  destruct (truthy chunks) eqn:Ht.
  - unfold bind at 1. rewrite st_run, after_drawing_app.
    unfold bind at 1.
    match goal with
    | |- context [py_iter chunks ?w1] =>
        destruct (py_iter_pure chunks w1) as [o1 E1]; rewrite E1
    end.
    destruct o1 as [items|e].
    + match goal with
      | |- context [show_chunks 1 items ?w1] =>
          destruct (show_chunks_draws items 1 w1) as (o & calls & E & Hn)
      end.
      rewrite E, after_drawing_app, <- app_assoc.
      eexists o, _. split; [reflexivity|]. split; [exact Hn|].
      intros Hc. apply Hmiss in Hc. discriminate.
    + eexists (Raised e), [_]. split; [reflexivity|].
      split; [reflexivity|]. intros Hc. apply Hmiss in Hc. discriminate.
  - exists (Returned tt), []. rewrite app_nil_r.
    split; [reflexivity|]. split; [reflexivity|]. intros _. now split.
Qed.


(** C10. A result dict is drawn as a failure, one error box with the
    value of its [error] entry, exactly when it has that entry;
    otherwise the success view is drawn and holds no error box.  So a
    200 response whose body has an [error] entry is shown as a
    failure. *)
Theorem error_key_decides_failure (d : list (pystr * json)) (w : world) :
  match dict_lookup (py "error") d with
  | Some v =>
      show_build_result (JDict d) w
        = (Returned tt, after_drawing [st_error v] w)
      /\ show_ask_result (JDict d) w
        = (Returned tt, after_drawing [st_error v] w)
  | None =>
      show_build_result (JDict d) w
        = (Returned tt, after_drawing (build_view d) w)
      /\ existsb is_error_call (build_view d) = false
      /\ exists o rest,
           show_ask_result (JDict d) w
             = (o, after_drawing (answer_view d ++ rest) w)
           /\ existsb is_error_call (answer_view d ++ rest) = false
  end
  /\ forall (f : uploaded_file) (fs : list uploaded_file) (q : pystr)
            (r : response) (v : json),
       strip q <> [] ->
       status_code r = 200%Z ->
       body_json r = Some (JDict d) ->
       dict_lookup (py "error") d = Some v ->
       backend (build_request (f :: fs)) = Returned r ->
       backend (ask_request q) = Returned r ->
       on_build_click (f :: fs) w =
         (Returned tt,
          after_drawing [st_error v]
            (after_request (build_request (f :: fs))
               (after_drawing
                  [st_spinner (py "Building index from your PDFs...")] w)))
       /\ on_ask_click q w =
         (Returned tt,
          after_drawing [st_error v]
            (after_request (ask_request q)
               (after_drawing [st_spinner (py "Thinking...")] w))).
Proof.
  split.
  - destruct (dict_lookup (py "error") d) as [v|] eqn:He.
    + now apply show_result_failure.
    + split; [now apply show_build_result_success|].
      split; [reflexivity|].
      destruct (show_ask_result_success d w He) as (o & rest & E & Hn & _).
      exists o, rest. split; [exact E|].
      rewrite existsb_app, Hn. reflexivity.
  - intros f fs q r v Hq Hs Hj He Hb Ha.
    unfold on_build_click, on_ask_click.
    split.
    + unfold bind at 1. rewrite st_run.
      unfold bind at 1. rewrite build_index_run, Hb.
      unfold reply_outcome, decoded_body. rewrite Hs, Hj.
      now apply show_result_failure.
    + unfold bind at 1. rewrite st_run.
      unfold bind at 1. rewrite (ask_question_run q _ Hq), Ha.
      unfold reply_outcome, decoded_body. rewrite Hs, Hj.
      now apply show_result_failure.
Qed.

(* ------------------------------------------------------------------ *)
(** *** More on the transport client *)
(* ------------------------------------------------------------------ *)

Lemma check_backend_health_run (w : world) :
  check_backend_health w =
  (match backend health_request with
   | Returned r => Returned (status_code r =? 200)%Z
   | Raised e => if is_Exception e then Returned false else Raised e
   end,
   after_request health_request w).
Proof.
  unfold check_backend_health, try_except, bind, requests_get, requests_call.
  fold health_request. fold (after_request health_request w).
  destruct (backend health_request) as [r|e]; [reflexivity|].
  destruct (is_Exception e); reflexivity.
Qed.

Lemma has_text_negb (q : pystr) :
  has_text q = negb (forallb is_whitespace q).
Proof.
  unfold has_text. induction q as [|c q IH]; [reflexivity|].
  cbn [existsb forallb]. rewrite IH.
  now destruct (is_whitespace c), (forallb is_whitespace q).
Qed.

Lemma has_text_strip (q : pystr) : has_text q = true -> strip q <> [].
Proof.
  rewrite has_text_negb. intros H E. apply strip_nil_iff in E.
  rewrite E in H. discriminate.
Qed.

Lemma build_request_seek (pos : uploaded_file -> nat)
  (files : list uploaded_file) :
  build_request (map (fun f => seek f (pos f)) files) = build_request files.
Proof.
  unfold build_request. rewrite map_map. reflexivity.
Qed.

Lemma fault_detail_backend_fault (r : response) (v : json) :
  fault_detail r = Some v ->
  backend_fault r =
  Returned (error_dict (py "Backend error (" ++ str_int (status_code r)
                        ++ py "): " ++ py_str repr_str repr_float v)).
Proof.
  unfold fault_detail, backend_fault, dict_get.
  destruct (body_json r) as [j|].
  - destruct j; try discriminate.
    destruct (dict_lookup (py "detail") entries);
      intros H; inversion H; reflexivity.
  - intros H. inversion H. reflexivity.
Qed.

(** X1. No operation of the transport client retries or draws: the
    probe sends its one request, an upload and a question send one
    request unless they are refused before (no file, blank question),
    and the screen is left as it was, whatever the backend does. *)
Theorem transport_sends_at_most_once
  (files : list uploaded_file) (q : pystr) (w : world) :
  snd (check_backend_health w) = after_request health_request w
  /\ snd (build_index files w) =
     match files with
     | [] => w
     | _ :: _ => after_request (build_request files) w
     end
  /\ snd (ask_question q w) =
     match strip q with
     | [] => w
     | _ :: _ => after_request (ask_request q) w
     end.
Proof.
  split; [now rewrite check_backend_health_run|]. split.
  - destruct files as [|f fs]; [reflexivity|]. now rewrite build_index_run.
  - destruct (strip q) as [|c s] eqn:E.
    + unfold ask_question. rewrite E. reflexivity.
    + rewrite ask_question_run; [reflexivity|]. rewrite E. discriminate.
Qed.

(** X2. A question with any text in it is sent, and as typed: the one
    request is a POST to /ask whose JSON body holds the question with
    its surrounding whitespace, and nothing else. *)
Theorem ask_sends_question_as_typed (q : pystr) (w : world) :
  has_text q = true ->
  sent (snd (ask_question q w)) =
  sent w ++ [mk_request POST (BACKEND_URL ++ py "/ask")
               (Json (JDict [(py "question", JStr q)])) 120].
Proof.
  intros H. rewrite (ask_question_run q w (has_text_strip q H)). reflexivity.
Qed.

(** X3. The upload does not depend on where the cursors of the files
    stand: every file is read from its start, so moving the cursors
    changes neither the request nor the result. *)
Theorem upload_ignores_cursor
  (pos : uploaded_file -> nat) (files : list uploaded_file) (w : world) :
  build_index (map (fun f => seek f (pos f)) files) w = build_index files w.
Proof.
  destruct files as [|f fs]; [reflexivity|].
  cbn [map]. rewrite !build_index_run.
  change (seek f (pos f) :: map (fun f0 => seek f0 (pos f0)) fs)
    with (map (fun f0 => seek f0 (pos f0)) (f :: fs)).
  now rewrite build_request_seek.
Qed.

(** X4. An exception that is not an [Exception] (an interrupt, an exit)
    is not turned into a result: it leaves each of the three
    operations as it was raised. *)
Theorem base_exception_propagates
  (f : uploaded_file) (fs : list uploaded_file) (q : pystr)
  (w : world) (e : py_exc) :
  is_Exception e = false ->
  strip q <> [] ->
  backend health_request = Raised e ->
  backend (build_request (f :: fs)) = Raised e ->
  backend (ask_request q) = Raised e ->
  fst (check_backend_health w) = Raised e
  /\ fst (build_index (f :: fs) w) = Raised e
  /\ fst (ask_question q w) = Raised e.
Proof.
  intros He Hq Hh Hb Ha.
  rewrite check_backend_health_run, build_index_run,
    (ask_question_run q w Hq), Hh, Hb, Ha.
  cbn [fst reply_outcome]. rewrite He. now repeat split.
Qed.

(** X5. For a response of status other than 200 whose body is a JSON
    object or is not JSON at all, both operations return the error
    result "Backend error (<status>): <detail>": the [detail] entry of
    the object, the whole object when it has none, the raw text when
    the body is not JSON. *)
Theorem backend_fault_message
  (f : uploaded_file) (fs : list uploaded_file) (q : pystr)
  (w : world) (r : response) (v : json) :
  status_code r <> 200%Z ->
  strip q <> [] ->
  backend (build_request (f :: fs)) = Returned r ->
  backend (ask_request q) = Returned r ->
  fault_detail r = Some v ->
  build_index (f :: fs) w =
    (Returned (error_dict (py "Backend error (" ++ str_int (status_code r)
                           ++ py "): " ++ py_str repr_str repr_float v)),
     after_request (build_request (f :: fs)) w)
  /\ ask_question q w =
    (Returned (error_dict (py "Backend error (" ++ str_int (status_code r)
                           ++ py "): " ++ py_str repr_str repr_float v)),
     after_request (ask_request q) w).
Proof.
  intros Hs Hq Hb Ha Hv. apply Z.eqb_neq in Hs.
  rewrite build_index_run, (ask_question_run q w Hq), Hb, Ha.
  cbn [reply_outcome]. rewrite Hs, (fault_detail_backend_fault r v Hv).
  split; reflexivity.
Qed.

(* ------------------------------------------------------------------ *)
(** *** The loop over the retrieved chunks *)
(* ------------------------------------------------------------------ *)

Lemma show_chunks_ok_step (i : Z) (ch : json) (rest : list json) (w : world) :
  chunk_ok ch = true ->
  show_chunks i (ch :: rest) w =
  show_chunks (i + 1) rest (after_drawing (chunk_calls (i, ch)) w).
Proof.
  destruct ch as [| | | | |l|d]; try discriminate.
  cbn [chunk_ok chunk_calls]. intros Hm.
  cbn [show_chunks]. unfold bind at 1. rewrite py_get_dict.
  change (if truthy (dict_get (py "metadata") (JDict []) d)
          then dict_get (py "metadata") (JDict []) d else JDict [])
    with (chunk_meta d).
  destruct (chunk_meta d) as [| | | | |l|md]; try discriminate.
  unfold bind at 1. rewrite py_get_dict.
  unfold bind at 1. rewrite py_get_dict.
  unfold bind at 1. rewrite st_run.
  unfold bind at 1. rewrite py_get_dict.
  unfold bind at 1. rewrite st_run.
  unfold bind at 1. rewrite st_run.
  rewrite !after_drawing_app. reflexivity.
Qed.

Lemma show_chunks_bad_step (i : Z) (ch : json) (rest : list json) (w : world) :
  chunk_ok ch = false ->
  exists v, show_chunks i (ch :: rest) w = (Raised (no_get v), w).
Proof.
  destruct ch as [| | | | |l|d]; intros Hm;
    try (eexists; reflexivity).
  cbn [chunk_ok] in Hm.
  cbn [show_chunks]. unfold bind at 1. rewrite py_get_dict.
  change (if truthy (dict_get (py "metadata") (JDict []) d)
          then dict_get (py "metadata") (JDict []) d else JDict [])
    with (chunk_meta d).
  exists (chunk_meta d).
  destruct (chunk_meta d); try reflexivity. discriminate.
Qed.

Lemma show_chunks_ok_run (items : list json) :
  forall (i : Z) (w : world),
  forallb chunk_ok items = true ->
  show_chunks i items w =
  (Returned tt, after_drawing (flat_map chunk_calls (enumerate i items)) w).
Proof.
  induction items as [|ch rest IH]; intros i w H.
  - cbn. now rewrite after_drawing_nil.
  - cbn [forallb] in H. apply andb_true_iff in H as [Hc Hr].
    rewrite (show_chunks_ok_step i ch rest w Hc).
    rewrite (IH (i + 1)%Z _ Hr), after_drawing_app. reflexivity.
Qed.

Lemma chunk_calls_length (i : Z) (ch : json) :
  chunk_ok ch = true -> List.length (chunk_calls (i, ch)) = 3.
Proof.
  destruct ch as [| | | | |l|d]; try discriminate.
  cbn [chunk_ok chunk_calls].
  destruct (chunk_meta d); try discriminate. reflexivity.
Qed.

(** X6. Chunks that are objects with object metadata are all shown, in
    the order received and numbered as [enumerate] numbers them: three
    calls each (heading with source and index, text, rule), and no
    exception. *)
Theorem show_chunks_well_formed (items : list json) (i : Z) (w : world) :
  forallb chunk_ok items = true ->
  show_chunks i items w =
  (Returned tt, after_drawing (flat_map chunk_calls (enumerate i items)) w)
  /\ List.length (flat_map chunk_calls (enumerate i items))
     = 3 * List.length items.
Proof.
  intros H. split; [now apply show_chunks_ok_run|].
  clear w. revert i. induction items as [|ch rest IH]; intros i.
  - reflexivity.
  - cbn [forallb] in H. apply andb_true_iff in H as [Hc Hr].
    cbn [enumerate flat_map List.length].
    rewrite length_app, (IH Hr), (chunk_calls_length i ch Hc). lia.
Qed.

(** X7. The loop stops at the first chunk it cannot show, one that is
    not an object or whose metadata is not one: the chunks before it
    stay on the screen, [AttributeError] is raised for the missing
    [get], and nothing of that chunk or of the later ones is drawn. *)
Theorem show_chunks_stops_at_bad_chunk
  (good : list json) (bad : json) (rest : list json) :
  forall (i : Z) (w : world),
  forallb chunk_ok good = true ->
  chunk_ok bad = false ->
  exists v,
    show_chunks i (good ++ bad :: rest) w =
    (Raised (no_get v),
     after_drawing (flat_map chunk_calls (enumerate i good)) w).
Proof.
  induction good as [|ch good IH]; intros i w Hg Hb.
  - destruct (show_chunks_bad_step i bad rest w Hb) as [v E].
    exists v. cbn. now rewrite after_drawing_nil.
  - cbn [forallb] in Hg. apply andb_true_iff in Hg as [Hc Hg].
    cbn [app]. rewrite (show_chunks_ok_step i ch _ w Hc).
    destruct (IH (i + 1)%Z (after_drawing (chunk_calls (i, ch)) w) Hg Hb)
      as [v E].
    exists v. rewrite E, after_drawing_app. reflexivity.
Qed.

(** X8. A chunk whose metadata is missing, [null] or otherwise falsy is
    shown with the source "unknown" and the chunk index -1, and a
    chunk without text with the empty string. *)
Theorem chunk_without_metadata
  (i : Z) (d : list (pystr * json)) (w : world) :
  truthy (dict_get (py "metadata") (JDict []) d) = false ->
  show_chunks i [JDict d] w =
  (Returned tt,
   after_drawing
     [ st_markdown
         (py "**Chunk " ++ str_int i ++ py "**  " ++ newline
          ++ py "*Source:* `" ++ py "unknown"
          ++ py "` " ++ em_dash ++ py " *chunk index:* `"
          ++ py "-1" ++ py "`");
       st_write (dict_get (py "text") (JStr []) d);
       st_markdown (py "---") ] w).
Proof.
  intros Hm.
  assert (Hmeta : chunk_meta d = JDict []).
  { unfold chunk_meta. now rewrite Hm. }
  assert (Hok : chunk_ok (JDict d) = true).
  { cbn [chunk_ok]. now rewrite Hmeta. }
  rewrite (show_chunks_ok_step i (JDict d) [] w Hok).
  cbn [show_chunks chunk_calls]. rewrite Hmeta. reflexivity.
Qed.

(* ------------------------------------------------------------------ *)
(** *** The views and the handlers *)
(* ------------------------------------------------------------------ *)

Lemma show_build_result_non_dict (v : json) (w : world) :
  is_dict v = false ->
  exists e,
    show_build_result v w = (Raised e, w)
    /\ (exc_type e = TypeError \/ exc_type e = AttributeError).
Proof.
  intros H. unfold show_build_result, bind.
  destruct v as [| | | |s|l|d]; try discriminate;
    try (eexists; split; [reflexivity|now left]).
  - cbn [py_in ret]. destruct (is_infix (py "error") s);
      eexists; (split; [reflexivity|]); [now left|now right].
  - cbn [py_in ret].
    match goal with |- context [existsb ?p l] => destruct (existsb p l) end;
      eexists; (split; [reflexivity|]); [now left|now right].
Qed.

Lemma show_ask_result_non_dict (v : json) (w : world) :
  is_dict v = false ->
  exists e calls,
    show_ask_result v w = (Raised e, after_drawing calls w)
    /\ existsb is_error_call calls = false
    /\ (exc_type e = TypeError \/ exc_type e = AttributeError).
Proof.
  intros H. unfold show_ask_result. unfold bind at 1.
  destruct v as [| | | |s|l|d]; try discriminate;
    try (eexists _, []; rewrite after_drawing_nil;
         split; [reflexivity|]; split; [reflexivity|now left]).
  - cbn [py_in ret]. destruct (is_infix (py "error") s).
    + eexists _, []. rewrite after_drawing_nil.
      split; [reflexivity|]. split; [reflexivity|now left].
    + unfold bind at 1. rewrite st_run.
      eexists _, [_]. split; [reflexivity|]. split; [reflexivity|now right].
  - cbn [py_in ret].
    match goal with |- context [existsb ?p l] => destruct (existsb p l) end.
    + eexists _, []. rewrite after_drawing_nil.
      split; [reflexivity|]. split; [reflexivity|now left].
    + unfold bind at 1. rewrite st_run.
      eexists _, [_]. split; [reflexivity|]. split; [reflexivity|now right].
Qed.

Lemma show_build_result_frame (v : json) (w : world) :
  sent (snd (show_build_result v w)) = sent w.
Proof.
  destruct (is_dict v) eqn:Hd.
  - destruct v; try discriminate.
    destruct (dict_lookup (py "error") entries) as [x|] eqn:He.
    + destruct (show_result_failure entries x w He) as [E _]. now rewrite E.
    + now rewrite (show_build_result_success entries w He).
  - destruct (show_build_result_non_dict v w Hd) as (e & E & _).
    now rewrite E.
Qed.

Lemma show_ask_result_frame (v : json) (w : world) :
  sent (snd (show_ask_result v w)) = sent w.
Proof.
  destruct (is_dict v) eqn:Hd.
  - destruct v; try discriminate.
    destruct (dict_lookup (py "error") entries) as [x|] eqn:He.
    + destruct (show_result_failure entries x w He) as [_ E]. now rewrite E.
    + destruct (show_ask_result_success entries w He) as (o & rest & E & _).
      now rewrite E.
  - destruct (show_ask_result_non_dict v w Hd) as (e & calls & E & _).
    now rewrite E.
Qed.

Lemma show_error_dict (msg : pystr) (w : world) :
  show_build_result (error_dict msg) w
    = (Returned tt, after_drawing (failure_box msg) w)
  /\ show_ask_result (error_dict msg) w
    = (Returned tt, after_drawing (failure_box msg) w).
Proof. split; reflexivity. Qed.

(** What a handler does once its operation has ended. *)
Lemma on_build_click_run
  (f : uploaded_file) (fs : list uploaded_file) (w : world) :
  on_build_click (f :: fs) w =
  let w1 := after_request (build_request (f :: fs))
              (after_drawing
                 [st_spinner (py "Building index from your PDFs...")] w) in
  match reply_outcome (backend (build_request (f :: fs))) with
  | Returned v => show_build_result v w1
  | Raised e => (Raised e, w1)
  end.
Proof.
  unfold on_build_click. unfold bind at 1. rewrite st_run.
  unfold bind at 1. rewrite build_index_run. reflexivity.
Qed.

Lemma on_ask_click_run (q : pystr) (w : world) :
  strip q <> [] ->
  on_ask_click q w =
  let w1 := after_request (ask_request q)
              (after_drawing [st_spinner (py "Thinking...")] w) in
  match reply_outcome (backend (ask_request q)) with
  | Returned v => show_ask_result v w1
  | Raised e => (Raised e, w1)
  end.
Proof.
  intros Hq. unfold on_ask_click. unfold bind at 1. rewrite st_run.
  unfold bind at 1. rewrite (ask_question_run q _ Hq). reflexivity.
Qed.

(** X9. A handler contacts the backend at most once per click: the
    health button sends the probe; the build button sends one upload,
    and none when no file is selected; the ask button sends one
    question, and none when the question is blank.  Drawing the
    result, of whatever shape, sends nothing. *)
Theorem handlers_send_at_most_once
  (files : list uploaded_file) (q : pystr) (w : world) :
  sent (snd (on_health_click w)) = sent w ++ [health_request]
  /\ sent (snd (on_build_click files w)) =
     sent w ++ match files with
               | [] => []
               | _ :: _ => [build_request files]
               end
  /\ sent (snd (on_ask_click q w)) =
     sent w ++ match strip q with
               | [] => []
               | _ :: _ => [ask_request q]
               end.
Proof.
  split; [|split].
  - unfold on_health_click, bind. rewrite check_backend_health_run.
    destruct (backend health_request) as [r|e].
    + destruct (status_code r =? 200)%Z; reflexivity.
    + destruct (is_Exception e); reflexivity.
  - destruct files as [|f fs]; [cbn; now rewrite app_nil_r|].
    rewrite on_build_click_run. cbv zeta.
    destruct (reply_outcome (backend (build_request (f :: fs)))) as [v|e].
    + now rewrite show_build_result_frame.
    + reflexivity.
  - destruct (strip q) as [|c t] eqn:E.
    + unfold on_ask_click. unfold bind at 1. rewrite st_run.
      unfold bind at 1. unfold ask_question at 1. rewrite E.
      unfold ret at 1. rewrite show_ask_result_frame.
      cbn. now rewrite app_nil_r.
    + rewrite on_ask_click_run by (rewrite E; discriminate). cbv zeta.
      destruct (reply_outcome (backend (ask_request q))) as [v|e].
      * now rewrite show_ask_result_frame.
      * reflexivity.
Qed.

(** X10. The health button draws one box and no more: the green one
    for a response of status 200, the red one for any other response
    and for any fault that [except Exception] catches. *)
Theorem health_view (w : world) :
  handled (backend health_request) = true ->
  on_health_click w =
  (Returned tt,
   after_drawing
     [ match backend health_request with
       | Returned r =>
           if (status_code r =? 200)%Z
           then st_success (py "Backend is healthy " ++ check_mark)
           else st_error (JStr (py "Backend is not reachable " ++ cross_mark))
       | Raised _ =>
           st_error (JStr (py "Backend is not reachable " ++ cross_mark))
       end ]
     (after_request health_request w)).
Proof.
  intros H. unfold on_health_click, bind. rewrite check_backend_health_run.
  destruct (backend health_request) as [r|e]; cbn [handled] in H.
  - destruct (status_code r =? 200)%Z; reflexivity.
  - rewrite H. reflexivity.
Qed.

(** X11. A blank question typed into the box is answered on the screen
    by the spinner and one error box with "Please enter a question.";
    no request leaves the client. *)
Theorem blank_question_view (q : pystr) (w : world) :
  forallb is_whitespace q = true ->
  on_ask_click q w =
  (Returned tt,
   after_drawing
     [ st_spinner (py "Thinking...");
       st_error (JStr (py "Please enter a question.")) ] w).
Proof.
  intros H. apply strip_nil_iff in H.
  unfold on_ask_click. unfold bind at 1. rewrite st_run.
  unfold bind at 1. unfold ask_question at 1. rewrite H.
  unfold ret at 1.
  destruct (show_error_dict (py "Please enter a question.")
              (after_drawing [st_spinner (py "Thinking...")] w)) as [_ E].
  rewrite E, after_drawing_app. reflexivity.
Qed.

Lemma show_ask_result_chunks
  (d : list (pystr * json)) (items : list json) (w : world) :
  dict_lookup (py "error") d = None ->
  dict_lookup (py "chunks") d = Some (JList items) ->
  forallb chunk_ok items = true ->
  show_ask_result (JDict d) w =
  (Returned tt,
   after_drawing
     (answer_view d ++
      match items with
      | [] => []
      | _ :: _ =>
          st_expander (page_icon ++ py " Show Retrieved Chunks")
          :: flat_map chunk_calls (enumerate 1 items)
      end) w).
Proof.
  intros He Hc Hok. unfold show_ask_result, bind at 1, py_in, ret.
  rewrite dict_mem_lookup, He.
  unfold bind at 1. rewrite st_run.
  unfold bind at 1. rewrite py_get_dict.
  unfold bind at 1. rewrite st_run.
  unfold bind at 1. rewrite st_run.
  unfold bind at 1. rewrite py_get_dict.
  unfold bind at 1. rewrite st_run.
  unfold bind at 1. rewrite py_get_dict.
  rewrite !after_drawing_app. cbn [app]. fold (answer_view d).
  assert (Hg : dict_get (py "chunks") (JList []) d = JList items).
  { unfold dict_get. now rewrite Hc. }
  rewrite Hg. destruct items as [|ch rest].
  - cbn [truthy]. now rewrite app_nil_r.
  - cbn [truthy]. unfold bind at 1. rewrite st_run, after_drawing_app.
    unfold bind at 1. cbn [py_iter]. unfold ret at 1.
    rewrite (show_chunks_ok_run (ch :: rest) 1 _ Hok), after_drawing_app.
    now rewrite <- app_assoc.
Qed.

(** X12. A fault of the transport reaches the user as the spinner and
    one error box with "Failed to reach backend: <cause>", from the
    build button and from the ask button alike; the click itself does
    not fail. *)
Theorem transport_fault_shown
  (f : uploaded_file) (fs : list uploaded_file) (q : pystr)
  (w : world) (e : py_exc) :
  is_Exception e = true ->
  strip q <> [] ->
  backend (build_request (f :: fs)) = Raised e ->
  backend (ask_request q) = Raised e ->
  on_build_click (f :: fs) w =
    (Returned tt,
     after_drawing (failure_box (py "Failed to reach backend: " ++ exc_msg e))
       (after_request (build_request (f :: fs))
          (after_drawing
             [st_spinner (py "Building index from your PDFs...")] w)))
  /\ on_ask_click q w =
    (Returned tt,
     after_drawing (failure_box (py "Failed to reach backend: " ++ exc_msg e))
       (after_request (ask_request q)
          (after_drawing [st_spinner (py "Thinking...")] w))).
Proof.
  intros He Hq Hb Ha.
  rewrite on_build_click_run, (on_ask_click_run q w Hq), Hb, Ha.
  cbv zeta. cbn [reply_outcome]. rewrite He. split; apply show_error_dict.
Qed.

(** X13. A response of status other than 200 whose body is a JSON
    object or is not JSON reaches the user as the spinner and one error
    box with "Backend error (<status>): <detail>"; no success view is
    drawn, whatever the body holds. *)
Theorem backend_fault_shown
  (f : uploaded_file) (fs : list uploaded_file) (q : pystr)
  (w : world) (r : response) (v : json) :
  status_code r <> 200%Z ->
  strip q <> [] ->
  backend (build_request (f :: fs)) = Returned r ->
  backend (ask_request q) = Returned r ->
  fault_detail r = Some v ->
  on_build_click (f :: fs) w =
    (Returned tt,
     after_drawing
       (failure_box (py "Backend error (" ++ str_int (status_code r)
                     ++ py "): " ++ py_str repr_str repr_float v))
       (after_request (build_request (f :: fs))
          (after_drawing
             [st_spinner (py "Building index from your PDFs...")] w)))
  /\ on_ask_click q w =
    (Returned tt,
     after_drawing
       (failure_box (py "Backend error (" ++ str_int (status_code r)
                     ++ py "): " ++ py_str repr_str repr_float v))
       (after_request (ask_request q)
          (after_drawing [st_spinner (py "Thinking...")] w))).
Proof.
  intros Hs Hq Hb Ha Hv. apply Z.eqb_neq in Hs.
  rewrite on_build_click_run, (on_ask_click_run q w Hq), Hb, Ha.
  cbv zeta. cbn [reply_outcome].
  rewrite Hs, (fault_detail_backend_fault r v Hv).
  split; apply show_error_dict.
Qed.

(** X14. A response of status 200 whose body is not JSON is not turned
    into an error result: [resp.json()] raises out of both operations,
    and the click ends in that exception with only the spinner
    drawn. *)
Theorem success_undecodable_raises
  (f : uploaded_file) (fs : list uploaded_file) (q : pystr)
  (w : world) (r : response) :
  status_code r = 200%Z ->
  body_json r = None ->
  strip q <> [] ->
  backend (build_request (f :: fs)) = Returned r ->
  backend (ask_request q) = Returned r ->
  exists e,
    exc_type e = JSONDecodeError
    /\ fst (build_index (f :: fs) w) = Raised e
    /\ fst (ask_question q w) = Raised e
    /\ on_build_click (f :: fs) w =
       (Raised e,
        after_request (build_request (f :: fs))
          (after_drawing
             [st_spinner (py "Building index from your PDFs...")] w))
    /\ on_ask_click q w =
       (Raised e,
        after_request (ask_request q)
          (after_drawing [st_spinner (py "Thinking...")] w)).
Proof.
  intros Hs Hj Hq Hb Ha.
  exists (mk_exc JSONDecodeError (py "Expecting value")).
  rewrite build_index_run, (ask_question_run q w Hq),
    on_build_click_run, (on_ask_click_run q w Hq), Hb, Ha.
  cbv zeta. cbn [reply_outcome fst]. unfold decoded_body.
  rewrite Hs, Hj. now repeat split.
Qed.

(** X15. A response of status 200 whose body is valid JSON but not an
    object (an array, a string, a number) is returned as it is, and
    drawing it fails: the click ends in [TypeError] or
    [AttributeError].  The build button has drawn the spinner only;
    the ask button has drawn no error box. *)
Theorem success_non_object_raises
  (f : uploaded_file) (fs : list uploaded_file) (q : pystr)
  (w : world) (r : response) (v : json) :
  status_code r = 200%Z ->
  body_json r = Some v ->
  is_dict v = false ->
  strip q <> [] ->
  backend (build_request (f :: fs)) = Returned r ->
  backend (ask_request q) = Returned r ->
  (exists e,
     on_build_click (f :: fs) w =
     (Raised e,
      after_request (build_request (f :: fs))
        (after_drawing
           [st_spinner (py "Building index from your PDFs...")] w))
     /\ (exc_type e = TypeError \/ exc_type e = AttributeError))
  /\ (exists e calls,
        on_ask_click q w =
        (Raised e,
         after_drawing calls
           (after_request (ask_request q)
              (after_drawing [st_spinner (py "Thinking...")] w)))
        /\ existsb is_error_call calls = false
        /\ (exc_type e = TypeError \/ exc_type e = AttributeError)).
Proof.
  intros Hs Hj Hd Hq Hb Ha.
  rewrite on_build_click_run, (on_ask_click_run q w Hq), Hb, Ha.
  cbv zeta. cbn [reply_outcome]. unfold decoded_body. rewrite Hs, Hj.
  split.
  - apply show_build_result_non_dict, Hd.
  - apply show_ask_result_non_dict, Hd.
Qed.

(** X16. A response of status 200 whose body is an object without an
    [error] entry reaches the user of the build button as the spinner
    and one success box with the chunk count of the body, 0 when the
    body has none. *)
Theorem build_success_shown
  (f : uploaded_file) (fs : list uploaded_file) (w : world)
  (r : response) (d : list (pystr * json)) :
  status_code r = 200%Z ->
  body_json r = Some (JDict d) ->
  dict_lookup (py "error") d = None ->
  backend (build_request (f :: fs)) = Returned r ->
  on_build_click (f :: fs) w =
  (Returned tt,
   after_drawing
     [ st_success
         (py "Index built successfully " ++ check_mark ++ newline ++ newline
          ++ py "**Total chunks indexed:** "
          ++ py_str repr_str repr_float
               match dict_lookup (py "chunks") d with
               | Some n => n
               | None => JInt 0
               end) ]
     (after_request (build_request (f :: fs))
        (after_drawing
           [st_spinner (py "Building index from your PDFs...")] w))).
Proof.
  intros Hs Hj He Hb.
  rewrite on_build_click_run, Hb. cbv zeta. cbn [reply_outcome].
  unfold decoded_body. rewrite Hs, Hj, Z.eqb_refl.
  now rewrite (show_build_result_success d _ He).
Qed.

(** X17. A response of status 200 whose body is an object without an
    [error] entry and with a list of well-formed chunks reaches the
    user of the ask button whole: the spinner, the answer, the context,
    and, when the list is not empty, the chunk section with every
    chunk in the order received, numbered from 1. *)
Theorem ask_success_shown
  (q : pystr) (w : world) (r : response)
  (d : list (pystr * json)) (items : list json) :
  strip q <> [] ->
  status_code r = 200%Z ->
  body_json r = Some (JDict d) ->
  dict_lookup (py "error") d = None ->
  dict_lookup (py "chunks") d = Some (JList items) ->
  forallb chunk_ok items = true ->
  backend (ask_request q) = Returned r ->
  on_ask_click q w =
  (Returned tt,
   after_drawing
     (answer_view d ++
      match items with
      | [] => []
      | _ :: _ =>
          st_expander (page_icon ++ py " Show Retrieved Chunks")
          :: flat_map chunk_calls (enumerate 1 items)
      end)
     (after_request (ask_request q)
        (after_drawing [st_spinner (py "Thinking...")] w))).
Proof.
  intros Hq Hs Hj He Hc Hok Ha.
  rewrite (on_ask_click_run q w Hq), Ha. cbv zeta. cbn [reply_outcome].
  unfold decoded_body. rewrite Hs, Hj, Z.eqb_refl.
  now apply show_ask_result_chunks.
Qed.

End Client.

(* ================================================================== *)
(** ** The properties on simulated backends *)
(* ================================================================== *)

(** No file, a healthy backend: the error result, nothing sent. *)
Lemma build_index_no_files_example :
  build_index plain_repr_str zero_repr_float environ_unset backend_healthy
    [] fresh
  = (Returned (error_dict (py "Please upload at least one PDF.")), fresh).
Proof. reflexivity. Qed.

(** A question of a space, a tab, a no-break space and a newline. *)
Lemma ask_question_blank_witness :
  ask_question plain_repr_str zero_repr_float environ_unset backend_healthy
    blank_question fresh
  = (Returned (error_dict (py "Please enter a question.")), fresh)
  /\ sent (snd (ask_question plain_repr_str zero_repr_float environ_unset
                  backend_healthy blank_question fresh)) = sent fresh.
Proof.
  apply (ask_question_blank plain_repr_str zero_repr_float environ_unset
           backend_healthy blank_question fresh).
  reflexivity.
Defined.

(** A probe that times out. *)
Lemma check_backend_health_bool_witness :
  exists b : bool,
    check_backend_health environ_unset (backend_down timed_out) fresh
    = (Returned b, after_request (health_request environ_unset) fresh)
    /\ (b = true <->
        exists r, backend_down timed_out (health_request environ_unset)
                  = Returned r /\ status_code r = 200%Z).
Proof.
  apply (check_backend_health_bool environ_unset (backend_down timed_out) fresh).
  reflexivity.
Defined.

(** A backend that refuses the connection. *)
Lemma transport_fault_reported_witness :
  build_index plain_repr_str zero_repr_float environ_unset
    (backend_down connection_refused) [a_pdf] fresh
  = (Returned
       (JDict [(py "error",
                JStr (py "Failed to reach backend: Connection refused"))]),
     after_request (build_request environ_unset [a_pdf]) fresh)
  /\ ask_question plain_repr_str zero_repr_float environ_unset
       (backend_down connection_refused) what_is_x fresh
  = (Returned
       (JDict [(py "error",
                JStr (py "Failed to reach backend: Connection refused"))]),
     after_request (ask_request environ_unset what_is_x) fresh).
Proof.
  destruct (transport_fault_reported plain_repr_str zero_repr_float
              environ_unset (backend_down connection_refused) a_pdf []
              what_is_x fresh connection_refused eq_refl) as [Hb Ha].
  split.
  - apply Hb. reflexivity.
  - apply Ha.
    + vm_compute. discriminate.
    + reflexivity.
Defined.

(** A 502 with an HTML page, sent to both. *)
Lemma error_results_identical_witness :
  fst (build_index plain_repr_str zero_repr_float environ_unset
         (backend_replying resp_bad_gateway) [a_pdf] fresh)
  = fst (ask_question plain_repr_str zero_repr_float environ_unset
           (backend_replying resp_bad_gateway) what_is_x fresh)
  /\ fst (ask_question plain_repr_str zero_repr_float environ_unset
            (backend_replying resp_bad_gateway) what_is_x fresh)
     = Returned
         (JDict [(py "error",
                  JStr (py "Backend error (" ++ str_int 502 ++ py "): "
                        ++ py "<html>Bad Gateway</html>"))]).
Proof.
  apply (error_results_identical plain_repr_str zero_repr_float environ_unset
           (backend_replying resp_bad_gateway) a_pdf [] what_is_x fresh).
  - vm_compute. discriminate.
  - split; [reflexivity|]. vm_compute. discriminate.
Defined.

(** A fault that differs in class but not in cause text. *)
Lemma same_cause_example :
  fst (build_index plain_repr_str zero_repr_float environ_unset
         (backend_down (mk_exc ConnectionError (py "unreachable")))
         [a_pdf] fresh)
  = fst (ask_question plain_repr_str zero_repr_float environ_unset
           (backend_down (mk_exc Timeout (py "unreachable")))
           what_is_x fresh).
Proof. reflexivity. Qed.

(** The two success runs of the specification: the chunk count, and the
    answer with its one chunk. *)
Lemma success_body_unmodified_witness :
  build_index plain_repr_str zero_repr_float environ_unset backend_healthy
    [a_pdf] fresh
  = (Returned (JDict [(py "chunks", JInt 42)]),
     after_request (build_request environ_unset [a_pdf]) fresh)
  /\ ask_question plain_repr_str zero_repr_float environ_unset backend_healthy
       what_is_x fresh
  = (Returned body_answer,
     after_request (ask_request environ_unset what_is_x) fresh).
Proof.
  apply (success_body_unmodified plain_repr_str zero_repr_float environ_unset
           backend_healthy a_pdf [] what_is_x fresh
           resp_chunks_42 resp_answer).
  - vm_compute. discriminate.
  - reflexivity.
  - reflexivity.
  - reflexivity.
  - reflexivity.
  - reflexivity.
  - reflexivity.
Defined.

(** The upload carries the whole file although its cursor stood at the
    end. *)
Lemma upload_is_rewound :
  req_payload (build_request environ_unset [a_pdf])
  = Files [(py "files", (py "a.pdf", [37; 80; 68; 70]%N, py "application/pdf"))]
  /\ sent (snd (build_index plain_repr_str zero_repr_float environ_unset
                  backend_healthy [a_pdf] fresh))
     = [build_request environ_unset [a_pdf]].
Proof. split; reflexivity. Qed.

(** The backend fault of the specification: status 500, an object with
    a [detail] string. *)
Lemma index_corrupt_example :
  build_index plain_repr_str zero_repr_float environ_unset
    (backend_replying resp_index_corrupt) [a_pdf] fresh
  = (Returned (error_dict (py "Backend error (500): index corrupt")),
     after_request (build_request environ_unset [a_pdf]) fresh).
Proof. vm_compute. reflexivity. Qed.

(** C1, where the code departs from it. A response of status 500 whose
    body is the JSON array ["index corrupt"] decodes to a list, which
    has no [get]: both operations raise [AttributeError] where an
    error result was due. *)
Theorem bare_list_fault_raises :
  build_index plain_repr_str zero_repr_float environ_unset
    (backend_replying resp_bare_list) [a_pdf] fresh
  = (Raised (mk_exc AttributeError
               (py "'list' object has no attribute 'get'")),
     after_request (build_request environ_unset [a_pdf]) fresh)
  /\ ask_question plain_repr_str zero_repr_float environ_unset
       (backend_replying resp_bare_list) what_is_x fresh
  = (Raised (mk_exc AttributeError
               (py "'list' object has no attribute 'get'")),
     after_request (ask_request environ_unset what_is_x) fresh).
Proof. split; vm_compute; reflexivity. Qed.

(** C2, where the code departs from it. On the same response of status
    500 with the JSON array ["index corrupt"] as its body, the two
    operations do end alike, but in the same [AttributeError]: neither
    returns an error result, so there is no "Backend error" message
    for them to share. *)
Theorem bare_list_no_error_result :
  fst (build_index plain_repr_str zero_repr_float environ_unset
         (backend_replying resp_bare_list) [a_pdf] fresh)
  = fst (ask_question plain_repr_str zero_repr_float environ_unset
           (backend_replying resp_bare_list) what_is_x fresh)
  /\ fst (ask_question plain_repr_str zero_repr_float environ_unset
            (backend_replying resp_bare_list) what_is_x fresh)
     = Raised (mk_exc AttributeError
                 (py "'list' object has no attribute 'get'"))
  /\ (forall msg : pystr,
        fst (build_index plain_repr_str zero_repr_float environ_unset
               (backend_replying resp_bare_list) [a_pdf] fresh)
        <> Returned (JDict [(py "error", JStr msg)])).
Proof.
  split; [vm_compute; reflexivity|]. split; [vm_compute; reflexivity|].
  intros msg. vm_compute. discriminate.
Qed.

(** An override that is set but empty is taken as it is: the address is
    the empty string, where the rule of the specification gives the
    default. *)
Lemma empty_override_not_default :
  BACKEND_URL (environ_with []) = []
  /\ resolve_spec (environ_with []) = DEFAULT_BACKEND_URL
  /\ BACKEND_URL (environ_with []) <> resolve_spec (environ_with []).
Proof.
  split; [reflexivity|]. split; [vm_compute; reflexivity|].
  vm_compute. discriminate.
Qed.



(** A 200 response whose body is {"error": "quota exceeded"}. *)
Lemma error_key_decides_failure_witness :
  on_build_click plain_repr_str zero_repr_float environ_unset
    (backend_replying resp_ok_with_error) [a_pdf] fresh
  = (Returned tt,
     after_drawing [st_error (JStr (py "quota exceeded"))]
       (after_request (build_request environ_unset [a_pdf])
          (after_drawing
             [st_spinner (py "Building index from your PDFs...")] fresh)))
  /\ on_ask_click plain_repr_str zero_repr_float environ_unset
       (backend_replying resp_ok_with_error) what_is_x fresh
  = (Returned tt,
     after_drawing [st_error (JStr (py "quota exceeded"))]
       (after_request (ask_request environ_unset what_is_x)
          (after_drawing [st_spinner (py "Thinking...")] fresh))).
Proof.
  apply (proj2 (error_key_decides_failure plain_repr_str zero_repr_float
                  environ_unset (backend_replying resp_ok_with_error)
                  [(py "error", JStr (py "quota exceeded"))] fresh)
           a_pdf [] what_is_x resp_ok_with_error
           (JStr (py "quota exceeded"))).
  - vm_compute. discriminate.
  - reflexivity.
  - reflexivity.
  - reflexivity.
  - reflexivity.
  - reflexivity.
Defined.

(* ================================================================== *)
(** ** Further properties on simulated backends *)
(* ================================================================== *)

Lemma rstrip_by_app_all (p : N -> bool) (s t : pystr) :
  forallb p t = true -> rstrip_by p (s ++ t) = rstrip_by p s.
Proof.
  intros Ht. induction s as [|c s IH].
  - cbn [app]. now rewrite (rstrip_by_all p t Ht).
  - cbn [app rstrip_by]. now rewrite IH.
Qed.

Lemma forallb_repeat_slash (k : nat) :
  forallb (N.eqb slash) (repeat slash k) = true.
Proof. induction k as [|k IH]; [reflexivity|]. cbn [repeat forallb]. now rewrite IH. Qed.

Lemma environ_with_lookup (v : pystr) :
  environ_with v (py "BACKEND_URL") = Some v.
Proof. reflexivity. Qed.

(** X18. Trailing slashes on the override do not matter: an override
    with any number of them added gives the same address, and so the
    same three request URLs, as the override without them. *)
Theorem trailing_slashes_irrelevant
  (v : pystr) (k : nat) (files : list uploaded_file) (q : pystr) :
  BACKEND_URL (environ_with (v ++ repeat slash k))
  = BACKEND_URL (environ_with v)
  /\ health_request (environ_with (v ++ repeat slash k))
     = health_request (environ_with v)
  /\ build_request (environ_with (v ++ repeat slash k)) files
     = build_request (environ_with v) files
  /\ ask_request (environ_with (v ++ repeat slash k)) q
     = ask_request (environ_with v) q.
Proof.
  assert (H : BACKEND_URL (environ_with (v ++ repeat slash k))
              = BACKEND_URL (environ_with v)).
  { unfold BACKEND_URL, getenv. rewrite !environ_with_lookup.
    apply rstrip_by_app_all, forallb_repeat_slash. }
  unfold health_request, build_request, ask_request. rewrite H.
  now repeat split.
Qed.

(** A question with blanks around it goes out with them. *)
Lemma ask_sends_question_as_typed_witness :
  sent (snd (ask_question plain_repr_str zero_repr_float environ_unset
               backend_healthy padded_question fresh))
  = sent fresh
    ++ [mk_request POST (BACKEND_URL environ_unset ++ py "/ask")
          (Json (JDict [(py "question", JStr padded_question)])) 120].
Proof.
  apply (ask_sends_question_as_typed plain_repr_str zero_repr_float
           environ_unset backend_healthy padded_question fresh).
  reflexivity.
Defined.

(** An interrupt while the request is out. *)
Lemma base_exception_propagates_witness :
  fst (check_backend_health environ_unset (backend_down interrupt) fresh)
  = Raised interrupt
  /\ fst (build_index plain_repr_str zero_repr_float environ_unset
            (backend_down interrupt) [a_pdf] fresh) = Raised interrupt
  /\ fst (ask_question plain_repr_str zero_repr_float environ_unset
            (backend_down interrupt) what_is_x fresh) = Raised interrupt.
Proof.
  apply (base_exception_propagates plain_repr_str zero_repr_float
           environ_unset (backend_down interrupt) a_pdf [] what_is_x fresh
           interrupt).
  - reflexivity.
  - vm_compute. discriminate.
  - reflexivity.
  - reflexivity.
  - reflexivity.
Defined.

(** A 502 with an HTML page: the raw text is the detail. *)
Lemma backend_fault_message_witness :
  build_index plain_repr_str zero_repr_float environ_unset
    (backend_replying resp_bad_gateway) [a_pdf] fresh
  = (Returned (error_dict (py "Backend error (" ++ str_int 502 ++ py "): "
                           ++ py "<html>Bad Gateway</html>")),
     after_request (build_request environ_unset [a_pdf]) fresh)
  /\ ask_question plain_repr_str zero_repr_float environ_unset
       (backend_replying resp_bad_gateway) what_is_x fresh
  = (Returned (error_dict (py "Backend error (" ++ str_int 502 ++ py "): "
                           ++ py "<html>Bad Gateway</html>")),
     after_request (ask_request environ_unset what_is_x) fresh).
Proof.
  apply (backend_fault_message plain_repr_str zero_repr_float environ_unset
           (backend_replying resp_bad_gateway) a_pdf [] what_is_x fresh
           resp_bad_gateway (JStr (py "<html>Bad Gateway</html>"))).
  - vm_compute. discriminate.
  - vm_compute. discriminate.
  - reflexivity.
  - reflexivity.
  - reflexivity.
Defined.

(** Two chunks, the second without metadata: six calls. *)
Lemma show_chunks_well_formed_witness :
  show_chunks plain_repr_str zero_repr_float 1 [chunk_a3; chunk_bare] fresh
  = (Returned tt,
     after_drawing
       (flat_map (chunk_calls plain_repr_str zero_repr_float)
          (enumerate 1 [chunk_a3; chunk_bare])) fresh)
  /\ List.length
       (flat_map (chunk_calls plain_repr_str zero_repr_float)
          (enumerate 1 [chunk_a3; chunk_bare]))
     = 3 * List.length [chunk_a3; chunk_bare].
Proof.
  apply (show_chunks_well_formed plain_repr_str zero_repr_float
           [chunk_a3; chunk_bare] 1 fresh).
  reflexivity.
Defined.

(** A good chunk, a string in place of a chunk, and one more chunk. *)
Lemma show_chunks_stops_at_bad_chunk_witness :
  exists v,
    show_chunks plain_repr_str zero_repr_float 1
      ([chunk_a3] ++ chunk_bad :: [chunk_bare]) fresh
    = (Raised (no_get v),
       after_drawing
         (flat_map (chunk_calls plain_repr_str zero_repr_float)
            (enumerate 1 [chunk_a3])) fresh).
Proof.
  apply (show_chunks_stops_at_bad_chunk plain_repr_str zero_repr_float
           [chunk_a3] chunk_bad [chunk_bare] 1 fresh).
  - reflexivity.
  - reflexivity.
Defined.

(** The chunk that has a text and nothing else. *)
Lemma chunk_without_metadata_witness :
  show_chunks plain_repr_str zero_repr_float 2
    [JDict [(py "text", JStr (py "u"))]] fresh
  = (Returned tt,
     after_drawing
       [ st_markdown
           (py "**Chunk " ++ str_int 2 ++ py "**  " ++ newline
            ++ py "*Source:* `" ++ py "unknown"
            ++ py "` " ++ em_dash ++ py " *chunk index:* `"
            ++ py "-1" ++ py "`");
         st_write (dict_get (py "text") (JStr [])
                     [(py "text", JStr (py "u"))]);
         st_markdown (py "---") ] fresh).
Proof.
  apply (chunk_without_metadata plain_repr_str zero_repr_float 2
           [(py "text", JStr (py "u"))] fresh).
  reflexivity.
Defined.

(** The probe of a healthy backend: the green box. *)
Lemma health_view_witness :
  on_health_click environ_unset backend_healthy fresh
  = (Returned tt,
     after_drawing [st_success (py "Backend is healthy " ++ check_mark)]
       (after_request (health_request environ_unset) fresh)).
Proof.
  apply (health_view environ_unset backend_healthy fresh).
  reflexivity.
Defined.

(** Blanks typed into the question box. *)
Lemma blank_question_view_witness :
  on_ask_click plain_repr_str zero_repr_float environ_unset backend_healthy
    blank_question fresh
  = (Returned tt,
     after_drawing
       [ st_spinner (py "Thinking...");
         st_error (JStr (py "Please enter a question.")) ] fresh).
Proof.
  apply (blank_question_view plain_repr_str zero_repr_float environ_unset
           backend_healthy blank_question fresh).
  reflexivity.
Defined.

(** A backend that times out, seen from both buttons. *)
Lemma transport_fault_shown_witness :
  on_build_click plain_repr_str zero_repr_float environ_unset
    (backend_down timed_out) [a_pdf] fresh
  = (Returned tt,
     after_drawing
       (failure_box (py "Failed to reach backend: " ++ exc_msg timed_out))
       (after_request (build_request environ_unset [a_pdf])
          (after_drawing
             [st_spinner (py "Building index from your PDFs...")] fresh)))
  /\ on_ask_click plain_repr_str zero_repr_float environ_unset
       (backend_down timed_out) what_is_x fresh
  = (Returned tt,
     after_drawing
       (failure_box (py "Failed to reach backend: " ++ exc_msg timed_out))
       (after_request (ask_request environ_unset what_is_x)
          (after_drawing [st_spinner (py "Thinking...")] fresh))).
Proof.
  apply (transport_fault_shown plain_repr_str zero_repr_float environ_unset
           (backend_down timed_out) a_pdf [] what_is_x fresh timed_out).
  - reflexivity.
  - vm_compute. discriminate.
  - reflexivity.
  - reflexivity.
Defined.

(** The 500 of the specification, seen from both buttons. *)
Lemma backend_fault_shown_witness :
  on_build_click plain_repr_str zero_repr_float environ_unset
    (backend_replying resp_index_corrupt) [a_pdf] fresh
  = (Returned tt,
     after_drawing
       (failure_box (py "Backend error (" ++ str_int 500 ++ py "): "
                     ++ py "index corrupt"))
       (after_request (build_request environ_unset [a_pdf])
          (after_drawing
             [st_spinner (py "Building index from your PDFs...")] fresh)))
  /\ on_ask_click plain_repr_str zero_repr_float environ_unset
       (backend_replying resp_index_corrupt) what_is_x fresh
  = (Returned tt,
     after_drawing
       (failure_box (py "Backend error (" ++ str_int 500 ++ py "): "
                     ++ py "index corrupt"))
       (after_request (ask_request environ_unset what_is_x)
          (after_drawing [st_spinner (py "Thinking...")] fresh))).
Proof.
  apply (backend_fault_shown plain_repr_str zero_repr_float environ_unset
           (backend_replying resp_index_corrupt) a_pdf [] what_is_x fresh
           resp_index_corrupt (JStr (py "index corrupt"))).
  - vm_compute. discriminate.
  - vm_compute. discriminate.
  - reflexivity.
  - reflexivity.
  - reflexivity.
Defined.

(** A 200 with an HTML page. *)
Lemma success_undecodable_raises_witness :
  exists e,
    exc_type e = JSONDecodeError
    /\ fst (build_index plain_repr_str zero_repr_float environ_unset
              (backend_replying resp_ok_html) [a_pdf] fresh) = Raised e
    /\ fst (ask_question plain_repr_str zero_repr_float environ_unset
              (backend_replying resp_ok_html) what_is_x fresh) = Raised e
    /\ on_build_click plain_repr_str zero_repr_float environ_unset
         (backend_replying resp_ok_html) [a_pdf] fresh
       = (Raised e,
          after_request (build_request environ_unset [a_pdf])
            (after_drawing
               [st_spinner (py "Building index from your PDFs...")] fresh))
    /\ on_ask_click plain_repr_str zero_repr_float environ_unset
         (backend_replying resp_ok_html) what_is_x fresh
       = (Raised e,
          after_request (ask_request environ_unset what_is_x)
            (after_drawing [st_spinner (py "Thinking...")] fresh)).
Proof.
  apply (success_undecodable_raises plain_repr_str zero_repr_float
           environ_unset (backend_replying resp_ok_html) a_pdf []
           what_is_x fresh resp_ok_html).
  - reflexivity.
  - reflexivity.
  - vm_compute. discriminate.
  - reflexivity.
  - reflexivity.
Defined.

(** A 200 with the body []. *)
Lemma success_non_object_raises_witness :
  (exists e,
     on_build_click plain_repr_str zero_repr_float environ_unset
       (backend_replying resp_ok_array) [a_pdf] fresh
     = (Raised e,
        after_request (build_request environ_unset [a_pdf])
          (after_drawing
             [st_spinner (py "Building index from your PDFs...")] fresh))
     /\ (exc_type e = TypeError \/ exc_type e = AttributeError))
  /\ (exists e calls,
        on_ask_click plain_repr_str zero_repr_float environ_unset
          (backend_replying resp_ok_array) what_is_x fresh
        = (Raised e,
           after_drawing calls
             (after_request (ask_request environ_unset what_is_x)
                (after_drawing [st_spinner (py "Thinking...")] fresh)))
        /\ existsb is_error_call calls = false
        /\ (exc_type e = TypeError \/ exc_type e = AttributeError)).
Proof.
  apply (success_non_object_raises plain_repr_str zero_repr_float
           environ_unset (backend_replying resp_ok_array) a_pdf []
           what_is_x fresh resp_ok_array (JList [])).
  - reflexivity.
  - reflexivity.
  - reflexivity.
  - vm_compute. discriminate.
  - reflexivity.
  - reflexivity.
Defined.

(** The upload of the specification: 42 chunks. *)
Lemma build_success_shown_witness :
  on_build_click plain_repr_str zero_repr_float environ_unset backend_healthy
    [a_pdf] fresh
  = (Returned tt,
     after_drawing
       [ st_success
           (py "Index built successfully " ++ check_mark ++ newline ++ newline
            ++ py "**Total chunks indexed:** "
            ++ py_str plain_repr_str zero_repr_float
                 match dict_lookup (py "chunks") [(py "chunks", JInt 42)] with
                 | Some n => n
                 | None => JInt 0
                 end) ]
       (after_request (build_request environ_unset [a_pdf])
          (after_drawing
             [st_spinner (py "Building index from your PDFs...")] fresh))).
Proof.
  apply (build_success_shown plain_repr_str zero_repr_float environ_unset
           backend_healthy a_pdf [] fresh resp_chunks_42
           [(py "chunks", JInt 42)]).
  - reflexivity.
  - reflexivity.
  - reflexivity.
  - reflexivity.
Defined.

(** The answer of the specification, with its one chunk. *)
Lemma ask_success_shown_witness :
  on_ask_click plain_repr_str zero_repr_float environ_unset backend_healthy
    what_is_x fresh
  = (Returned tt,
     after_drawing
       (answer_view
          [(py "answer", JStr (py "X")); (py "context", JStr (py "Y"));
           (py "chunks", JList [chunk_a3])]
        ++ st_expander (page_icon ++ py " Show Retrieved Chunks")
           :: flat_map (chunk_calls plain_repr_str zero_repr_float)
                (enumerate 1 [chunk_a3]))
       (after_request (ask_request environ_unset what_is_x)
          (after_drawing [st_spinner (py "Thinking...")] fresh))).
Proof.
  apply (ask_success_shown plain_repr_str zero_repr_float environ_unset
           backend_healthy what_is_x fresh resp_answer
           [(py "answer", JStr (py "X")); (py "context", JStr (py "Y"));
            (py "chunks", JList [chunk_a3])]
           [chunk_a3]).
  - vm_compute. discriminate.
  - reflexivity.
  - reflexivity.
  - reflexivity.
  - reflexivity.
  - reflexivity.
  - reflexivity.
Defined.
